(** * piwik_pro_mcp: the analytics client and its tool registry

    A shallow embedding of [src/piwik_pro_mcp.py]: the [PiwikAnalytics]
    client (token cache, authenticated HTTP calls, metric column
    resolution) and the five tools registered on the MCP server.

    Conventions of the embedding.
    - Python values that travel through JSON are values of [json];
      Python's [None] is [JNull].
    - Clock readings ([datetime.now().timestamp()]) and JSON floats are
      exact rationals: the rounding of float arithmetic is not modelled.
      The one exception float arithmetic raises in the program, the
      [OverflowError] of an [int] too large to convert, is.
    - A Python [str] is the [string] of its UTF-8 encoding; [len] counts
      its code points, the bytes that are not continuation bytes
      ([py_len]).
    - The process state is a [store]: the two mutable attributes of the
      client and the list of HTTP requests issued so far.  Log records
      are an output of every computation (the program never reads them);
      the records logged while the module is imported are left out.
    - A tool is an [async def] without any [await]: it runs to
      completion, and is a computation like any other.
    - The process environment, the remote platform,
      [json.dumps(., indent=2)] and the [str] of non-string values are
      the fields of a [runtime], a parameter of every definition that
      depends on them. *)

From Stdlib Require Import String Ascii List ZArith QArith Bool Lia Lqa.
From Stdlib Require Import DecimalString.
Import ListNotations.

Set Warnings "-register-all".

Local Open Scope list_scope.
Local Open Scope string_scope.

(** ** Python values *)

Inductive json : Type :=
| JNull
| JBool (b : bool)
| JInt (n : Z)
| JFloat (q : Q)
| JStr (s : string)
| JArr (l : list json)
| JObj (m : list (string * json)).

(** Python truth value testing, [bool(v)]. *)
Definition truthy (v : json) : bool :=
  match v with
  | JNull => false
  | JBool b => b
  | JInt n => negb (Z.eqb n 0)
  | JFloat q => negb (Qeq_bool q 0)
  | JStr s => negb (String.eqb s "")
  | JArr l => match l with [] => false | _ => true end
  | JObj m => match m with [] => false | _ => true end
  end.

(** [type(v).__name__]. *)
Definition type_name (v : json) : string :=
  match v with
  | JNull => "NoneType"
  | JBool _ => "bool"
  | JInt _ => "int"
  | JFloat _ => "float"
  | JStr _ => "str"
  | JArr _ => "list"
  | JObj _ => "dict"
  end.

(** Lookup in a dict kept as an association list (insertion order is
    what [json.dumps] prints; keys of a Python dict are unique). *)
Fixpoint assoc {A : Type} (k : string) (m : list (string * A)) : option A :=
  match m with
  | [] => None
  | (k', v) :: m' => if String.eqb k k' then Some v else assoc k m'
  end.

Definition nl : string := String (ascii_of_nat 10) "".

(** [str(n)] for an [int]. *)
Definition string_of_Z (n : Z) : string := NilZero.string_of_int (Z.to_int n).

(** ** HTTP, as the [requests] library presents it *)

Record request : Type := {
  req_method : string;
  req_url : string;
  req_headers : list (string * string);
  req_auth : option (string * string);
  req_data : list (string * string);
  req_json : option json;
  req_params : option json
}.

(** What [response.json()] does with the body. *)
Inductive json_decode : Type :=
| Decoded (j : json)
| DecodeError (msg : string).

Record response : Type := {
  status_code : Z;
  reason : string;
  text : string;
  body_json : json_decode
}.

Inductive http_outcome : Type :=
| TransportError (msg : string)
| Response (r : response).

(** ** Exceptions *)

Inductive exn : Type :=
| Exception (msg : string)
| KeyError (key : string)
| TypeError (msg : string)
| ValueError (msg : string)
| RequestException (msg : string) (resp : option response)
| JSONDecodeError (msg : string)
| OverflowError (msg : string).

(** [str(e)]. *)
Definition str_exn (e : exn) : string :=
  match e with
  | Exception msg => msg
  | KeyError key => "'" ++ key ++ "'"
  | TypeError msg => msg
  | ValueError msg => msg
  | RequestException msg _ => msg
  | JSONDecodeError msg => msg
  | OverflowError msg => msg
  end.

(** [except requests.exceptions.RequestException]: the decode error of
    [response.json()] is [requests.exceptions.JSONDecodeError], which
    derives from both [RequestException] and [json.JSONDecodeError]. *)
Definition is_RequestException (e : exn) : bool :=
  match e with
  | RequestException _ _ | JSONDecodeError _ => true
  | _ => false
  end.

(** [except json.JSONDecodeError]. *)
Definition is_JSONDecodeError (e : exn) : bool :=
  match e with
  | JSONDecodeError _ => true
  | _ => false
  end.

(** [except Exception]. *)
Definition is_Exception (e : exn) : bool := true.

(** ** The store, the log and the monad *)

Inductive level : Type := DEBUG | INFO | WARNING | ERROR.

Definition log_record : Type := (level * string)%type.

Record store : Type := {
  token : json;
  token_expiry : option Q;
  sent : list request
}.

Inductive result (A : Type) : Type :=
| Ok (a : A)
| Raise (e : exn).
Arguments Ok {A} a.
Arguments Raise {A} e.

Definition M (A : Type) : Type := store -> result A * store * list log_record.

Definition ret {A : Type} (a : A) : M A := fun st => (Ok a, st, []).

Definition raise {A : Type} (e : exn) : M A := fun st => (Raise e, st, []).

Definition bind {A B : Type} (m : M A) (k : A -> M B) : M B :=
  fun st =>
    match m st with
    | (Ok a, st1, l1) =>
        match k a st1 with
        | (r, st2, l2) => (r, st2, (l1 ++ l2)%list)
        end
    | (Raise e, st1, l1) => (Raise e, st1, l1)
    end.

(** [try: m  except <catches> as e: handler e]. *)
Definition try_except {A : Type} (m : M A) (catches : exn -> bool)
    (handler : exn -> M A) : M A :=
  fun st =>
    match m st with
    | (Ok a, st1, l1) => (Ok a, st1, l1)
    | (Raise e, st1, l1) =>
        if catches e then
          match handler e st1 with
          | (r, st2, l2) => (r, st2, (l1 ++ l2)%list)
          end
        else (Raise e, st1, l1)
    end.

Declare Scope py_scope.
Delimit Scope py_scope with py.
Notation "x <- m ;; k" := (bind m (fun x => k))
  (at level 61, m at next level, right associativity) : py_scope.
Notation "m ;; k" := (bind m (fun _ => k))
  (at level 61, right associativity) : py_scope.
Local Open Scope py_scope.

Definition logger (lv : level) (msg : string) : M unit :=
  fun st => (Ok tt, st, [(lv, msg)]).

Definition get_store : M store := fun st => (Ok st, st, []).

Definition set_token (v : json) : M unit :=
  fun st => (Ok tt, {| token := v; token_expiry := token_expiry st; sent := sent st |}, []).

Definition set_token_expiry (t : Q) : M unit :=
  fun st => (Ok tt, {| token := token st; token_expiry := Some t; sent := sent st |}, []).

Definition when (b : bool) (m : M unit) : M unit := if b then m else ret tt.

(** Projections of a run. *)
Definition outcome {A : Type} (x : result A * store * list log_record) : result A :=
  fst (fst x).
Definition final {A : Type} (x : result A * store * list log_record) : store :=
  snd (fst x).
Definition logged {A : Type} (x : result A * store * list log_record) : list log_record :=
  snd x.

(** ** Process environment and clock *)

Record environ : Type := {
  env_PIWIK_PRO_CLIENT_ID : option string;
  env_PIWIK_PRO_CLIENT_SECRET : option string;
  env_PIWIK_PRO_DOMAIN : option string
}.

(** One reading of the wall clock: [datetime.now().timestamp()] and
    [datetime.now().strftime("%Y-%m-%d")]. *)
Record clock : Type := {
  timestamp : Q;
  today : string
}.

(** [os.getenv(name)] is [None] or a string; its truth value. *)
Definition truthy_env (v : option string) : bool :=
  match v with
  | None => false
  | Some s => negb (String.eqb s "")
  end.

(** [x < y] on floats. *)
Definition Qltb (x y : Q) : bool := negb (Qle_bool y x).

(** [response.raise_for_status()] of [requests]: an [HTTPError] for the
    status codes 400..599, nothing for any other code. *)
Definition http_error_msg (r : response) (url : string) : option string :=
  if (400 <=? status_code r)%Z && (status_code r <? 500)%Z then
    Some (string_of_Z (status_code r) ++ " Client Error: " ++ reason r ++ " for url: " ++ url)
  else if (500 <=? status_code r)%Z && (status_code r <? 600)%Z then
    Some (string_of_Z (status_code r) ++ " Server Error: " ++ reason r ++ " for url: " ++ url)
  else None.

Definition raise_for_status (r : response) (url : string) : M unit :=
  match http_error_msg r url with
  | Some msg => raise (RequestException msg (Some r))
  | None => ret tt
  end.

(** [response.json()]. *)
Definition response_json (r : response) : M json :=
  match body_json r with
  | Decoded j => ret j
  | DecodeError msg => raise (JSONDecodeError msg)
  end.

(** [data[key]] for a string key. *)
Definition py_getitem (data : json) (key : string) : M json :=
  match data with
  | JObj m =>
      match assoc key m with
      | Some v => ret v
      | None => raise (KeyError key)
      end
  | JArr _ => raise (TypeError "list indices must be integers or slices, not str")
  | JStr _ => raise (TypeError "string indices must be integers, not 'str'")
  | v => raise (TypeError ("'" ++ type_name v ++ "' object is not subscriptable"))
  end.

(** [data.get(key, default)]; the program reaches it with a dict only,
    after [data["access_token"]] has succeeded. *)
Definition dict_get (data : json) (key : string) (default : json) : json :=
  match data with
  | JObj m =>
      match assoc key m with
      | Some v => v
      | None => default
      end
  | _ => default
  end.

(** The operands a float accepts in [t + v]: [int], [float] and [bool]
    (an [int] subclass). *)
Definition as_float (v : json) : option Q :=
  match v with
  | JInt n => Some (inject_Z n)
  | JFloat q => Some q
  | JBool b => Some (if b then 1%Q else 0%Q)
  | _ => None
  end.

(** The least magnitude of an [int] that does not convert to a float:
    the midpoint between the largest double, 2^1024 - 2^971, and 2^1024,
    which rounds (to even) to 2^1024. *)
Definition float_int_limit : Z := (2 ^ 1024 - 2 ^ 970)%Z.

(** [float(v)] raises [OverflowError]: [v] is an [int] of a magnitude of
    [float_int_limit] or more. *)
Definition overflows_float (v : json) : bool :=
  match v with
  | JInt n => (float_int_limit <=? Z.abs n)%Z
  | _ => false
  end.

(** [t + v] for a float [t]: an operand that is not a number is a
    [TypeError], an [int] too large to convert is an [OverflowError]. *)
Definition float_add (t : Q) (v : json) : M Q :=
  match as_float v with
  | Some x =>
      if overflows_float v
      then raise (OverflowError "int too large to convert to float")
      else ret (t + x)%Q
  | None => raise (TypeError ("unsupported operand type(s) for +: 'float' and '"
                              ++ type_name v ++ "'"))
  end.

(** [len(s)]: the code points of a [str], that is the bytes of its UTF-8
    encoding that are not continuation bytes (0x80..0xBF). *)
Fixpoint py_len (s : string) : nat :=
  match s with
  | EmptyString => 0
  | String c s' =>
      let b := nat_of_ascii c in
      if (128 <=? b)%nat && (b <? 192)%nat then py_len s' else S (py_len s')
  end.

(** ** The runtime the program is run in *)

Record runtime : Type := {
  (** The process environment at import time. *)
  os_environ : environ;
  (** The remote platform: its answer to a request, given the requests
      it has received before. *)
  server : list request -> request -> http_outcome;
  (** [json.dumps(., indent=2)]. *)
  json_dumps : json -> string;
  (** [str(v)] for a value that is not a [str]. *)
  py_repr : json -> string
}.

(** ** Module level configuration *)

Section Configuration.

Variable rt : runtime.

Definition PIWIK_PRO_CLIENT_ID : option string :=
  env_PIWIK_PRO_CLIENT_ID (os_environ rt).

Definition PIWIK_PRO_CLIENT_SECRET : option string :=
  env_PIWIK_PRO_CLIENT_SECRET (os_environ rt).

Definition PIWIK_PRO_DOMAIN : string :=
  match env_PIWIK_PRO_DOMAIN (os_environ rt) with
  | Some d => d
  | None => "analytics.piwik.pro"
  end.

Definition BASE_URL : string := "https://" ++ PIWIK_PRO_DOMAIN.

(** [f"{v}"]. *)
Definition py_str (v : json) : string :=
  match v with
  | JStr s => s
  | _ => py_repr rt v
  end.

(** One HTTP exchange: the request is recorded, then the platform
    answers or the transport fails. *)
Definition http (req : request) : M response :=
  fun st =>
    let st' := {| token := token st; token_expiry := token_expiry st;
                  sent := (sent st ++ [req])%list |} in
    match server rt (sent st) req with
    | TransportError msg => (Raise (RequestException msg None), st', [])
    | Response r => (Ok r, st', [])
    end.

End Configuration.

(** Optional arguments and Python's [or]. *)

(** A keyword argument with a default value: [None] is the argument
    left out by the caller. *)
Definition arg_default (v : option string) (default : string) : string :=
  match v with
  | Some s => s
  | None => default
  end.

(** [s or default] for an optional string argument. *)
Definition str_or (s : option string) (default : string) : string :=
  match s with
  | Some v => if String.eqb v "" then default else v
  | None => default
  end.

(** Truth value of an optional dict argument ([if data:]). *)
Definition truthy_arg (v : option json) : bool :=
  match v with
  | Some j => truthy j
  | None => false
  end.

Definition arg_value (v : option json) : json :=
  match v with
  | Some j => j
  | None => JNull
  end.

(** ** class PiwikAnalytics *)

Module PiwikAnalytics.

(** The attributes [__init__] sets from its arguments and nothing
    reassigns; [self.token] and [self.token_expiry] live in the
    [store], both [None] after [__init__]. *)
Record t : Type := {
  client_id : string;
  client_secret : string;
  domain : string
}.

Definition init_store : store :=
  {| token := JNull; token_expiry := None; sent := [] |}.

Definition metric_mapping : list (string * string) :=
  [ ("visits", "sessions");
    ("pageviews", "page_views");
    ("bounce_rate", "bounce_rate");
    ("avg_time_on_site", "session_total_time");
    ("unique_visitors", "visitors");
    ("conversion_rate", "goal_conversion_rate");
    ("revenue", "revenue");
    ("cart_abandonment", "abandoned_cart_rate");
    ("exit_rate", "exit_rate");
    ("entry_rate", "entry_rate") ].

(** The loop of [get_metrics] over [columns]: the first component is
    [column_configs], the second collects the records it logs. *)
Definition resolve_step (acc : list json * list log_record) (column : string)
    : list json * list log_record :=
  match assoc column metric_mapping with
  | Some column_id =>
      ((fst acc ++ [JObj [("column_id", JStr column_id)]])%list, snd acc)
  | None =>
      (fst acc,
       (snd acc ++ [(WARNING, ("Unknown column: " ++ column)%string)])%list)
  end.

Definition resolve_columns (columns : list string) : list json * list log_record :=
  fold_left resolve_step columns ([], []).

(** The guard of [_get_auth_token]:
    [self.token and self.token_expiry and current_timestamp < self.token_expiry]. *)
Definition token_usable (st : store) (current_timestamp : Q) : bool :=
  truthy (token st) &&
  match token_expiry st with
  | None => false
  | Some expiry => negb (Qeq_bool expiry 0) && Qltb current_timestamp expiry
  end.

Section Methods.

Variable rt : runtime.

(** [requests.post(auth_url, auth=(...), data={...})]. *)
Definition token_request (self : t) : request :=
  {| req_method := "POST";
     req_url := BASE_URL rt ++ "/auth/token";
     req_headers := [];
     req_auth := Some (client_id self, client_secret self);
     req_data := [("grant_type", "client_credentials")];
     req_json := None;
     req_params := None |}.

Definition _get_auth_token (self : t) (clk : clock) : M json :=
  let current_timestamp := timestamp clk in
  st <- get_store ;;
  if token_usable st current_timestamp then
    logger DEBUG "Using existing auth token" ;;
    ret (token st)
  else
    logger INFO "Requesting new auth token" ;;
    let auth_url := BASE_URL rt ++ "/auth/token" in
    try_except
      (response <- http rt (token_request self) ;;
       raise_for_status response auth_url ;;
       data <- response_json response ;;
       access_token <- py_getitem data "access_token" ;;
       set_token access_token ;;
       let expires_in := dict_get data "expires_in" (JInt 3600) in
       expiry <- float_add current_timestamp expires_in ;;
       set_token_expiry expiry ;;
       logger INFO "Successfully obtained new auth token" ;;
       st' <- get_store ;;
       ret (token st'))
      is_RequestException
      (fun e =>
         logger ERROR ("Failed to get auth token: " ++ str_exn e) ;;
         raise (Exception ("Authentication failed: " ++ str_exn e))).

Definition api_headers (tok : json) : list (string * string) :=
  [ ("Authorization", "Bearer " ++ py_str rt tok);
    ("Content-Type", "application/json") ].

Definition masked_headers (headers : list (string * string)) : json :=
  JObj (map (fun kv => (fst kv,
                        JStr (if String.eqb (fst kv) "Authorization"
                              then "Bearer ***" else snd kv)))
            headers).

(** The request of each supported method:
    [requests.get(url, headers=headers, params=params)],
    [requests.post(url, headers=headers, json=data)],
    [requests.put(url, headers=headers, json=data)],
    [requests.delete(url, headers=headers)]. *)
Definition api_request (method url : string) (headers : list (string * string))
    (data params : option json) : option request :=
  if String.eqb method "GET" then
    Some {| req_method := "GET"; req_url := url; req_headers := headers;
            req_auth := None; req_data := []; req_json := None;
            req_params := params |}
  else if String.eqb method "POST" then
    Some {| req_method := "POST"; req_url := url; req_headers := headers;
            req_auth := None; req_data := []; req_json := data;
            req_params := None |}
  else if String.eqb method "PUT" then
    Some {| req_method := "PUT"; req_url := url; req_headers := headers;
            req_auth := None; req_data := []; req_json := data;
            req_params := None |}
  else if String.eqb method "DELETE" then
    Some {| req_method := "DELETE"; req_url := url; req_headers := headers;
            req_auth := None; req_data := []; req_json := None;
            req_params := None |}
  else None.

Definition _make_api_call (self : t) (endpoint method : string)
    (data params : option json) (clk : clock) : M json :=
  logger DEBUG ("Making API call to " ++ endpoint ++ " with method " ++ method) ;;
  when (truthy_arg data)
    (logger DEBUG ("Request body: " ++ json_dumps rt (arg_value data))) ;;
  when (truthy_arg params)
    (logger DEBUG ("Request params: " ++ json_dumps rt (arg_value params))) ;;
  tok <- _get_auth_token self clk ;;
  let headers := api_headers tok in
  let url := BASE_URL rt ++ endpoint in
  logger DEBUG ("Full URL: " ++ url) ;;
  logger DEBUG ("Headers: " ++ json_dumps rt (masked_headers headers)) ;;
  try_except
    (response <-
       match api_request method url headers data params with
       | Some req => http rt req
       | None => raise (ValueError ("Unsupported HTTP method: " ++ method))
       end ;;
     raise_for_status response url ;;
     logger DEBUG ("API call successful: " ++ string_of_Z (status_code response)) ;;
     try_except
       (response_json response)
       is_JSONDecodeError
       (fun _ =>
          logger WARNING "Response was not JSON, returning text" ;;
          ret (JStr (text response))))
    is_RequestException
    (fun e =>
       let error_msg := "API call failed: " ++ str_exn e in
       error_msg <-
         match e with
         | RequestException _ (Some e_response) =>
             error_msg <-
               try_except
                 (error_details <- response_json e_response ;;
                  ret (error_msg ++ nl ++ "Error details: "
                       ++ json_dumps rt error_details))
                 is_JSONDecodeError
                 (fun _ => ret (error_msg ++ nl ++ "Response text: "
                                ++ text e_response)) ;;
             ret (error_msg ++ nl ++ "Status code: "
                  ++ string_of_Z (status_code e_response))
         | _ => ret error_msg
         end ;;
       logger ERROR error_msg ;;
       raise (Exception error_msg)).

Definition get_websites (self : t) (clk : clock) : M json :=
  _make_api_call self "/api/apps/v2" "GET" None None clk.

Definition get_website_details (self : t) (website_id : string)
    (clk : clock) : M json :=
  _make_api_call self ("/api/apps/v2/" ++ website_id) "GET" None None clk.

Definition get_metrics (self : t) (website_id date_from date_to : string)
    (columns : list string) (clk : clock) : M json :=
  let '(column_configs, warnings) := resolve_columns columns in
  (fun st => (Ok tt, st, warnings)) ;;
  let data :=
    JObj [ ("website_id", JStr website_id);
           ("date_from", JStr date_from);
           ("date_to", JStr date_to);
           ("columns", JArr column_configs);
           ("format", JStr "json");
           ("column_format", JStr "id");
           ("offset", JInt 0);
           ("limit", JInt 100);
           ("options", JObj [("sampling", JFloat 1)]) ] in
  _make_api_call self "/api/analytics/v1/query" "POST" (Some data) None clk.

Definition create_annotation (self : t) (website_id content : string)
    (date : option string) (visibility : option string) (clk : clock) : M json :=
  let visibility := arg_default visibility "private" in
  let data :=
    JObj [ ("data",
            JObj [ ("type", JStr "UserAnnotation");
                   ("attributes",
                    JObj [ ("content", JStr content);
                           ("website_id", JStr website_id);
                           ("date", JStr (str_or date (today clk)));
                           ("visibility", JStr visibility) ]) ]) ] in
  _make_api_call self "/api/analytics/v1/manage/annotation/user/" "POST"
    (Some data) None clk.

Definition get_annotations (self : t) (website_id : string)
    (clk : clock) : M json :=
  _make_api_call self
    ("/api/analytics/v1/manage/annotation/user?website_id=" ++ website_id)
    "GET" None None clk.

End Methods.

End PiwikAnalytics.

(** ** Module level: the global client and the tools *)

Section Tools.

Variable rt : runtime.

Definition piwik : option PiwikAnalytics.t :=
  if truthy_env (PIWIK_PRO_CLIENT_ID rt) && truthy_env (PIWIK_PRO_CLIENT_SECRET rt) then
    Some {| PiwikAnalytics.client_id := arg_default (PIWIK_PRO_CLIENT_ID rt) "";
            PiwikAnalytics.client_secret := arg_default (PIWIK_PRO_CLIENT_SECRET rt) "";
            PiwikAnalytics.domain := PIWIK_PRO_DOMAIN rt |}
  else None.

Definition not_initialized : string :=
  "Piwik PRO API client not initialized. Check credentials.".

(** [except Exception as e: raise Exception(str(e))]. *)
Definition reraise {A : Type} (e : exn) : M A := raise (Exception (str_exn e)).

Definition list_websites (clk : clock) : M string :=
  logger INFO "Executing list_websites tool" ;;
  match piwik with
  | None =>
      let error_msg := not_initialized in
      logger ERROR error_msg ;;
      raise (Exception error_msg)
  | Some piwik =>
      try_except
        (websites <- PiwikAnalytics.get_websites rt piwik clk ;;
         logger INFO "Successfully retrieved websites" ;;
         ret (json_dumps rt websites))
        is_Exception
        (fun e =>
           logger ERROR ("Error in list_websites: " ++ str_exn e) ;;
           raise (Exception (str_exn e)))
  end.

Definition get_website_details (website_id : string) (clk : clock) : M string :=
  match piwik with
  | None => raise (Exception not_initialized)
  | Some piwik =>
      if String.eqb website_id "" then raise (Exception "website_id is required")
      else
        try_except
          (details <- PiwikAnalytics.get_website_details rt piwik website_id clk ;;
           ret (json_dumps rt details))
          is_Exception reraise
  end.

Definition get_metrics (website_id date_from date_to : string)
    (columns : list string) (clk : clock) : M string :=
  match piwik with
  | None => raise (Exception not_initialized)
  | Some piwik =>
      if String.eqb website_id "" then raise (Exception "website_id is required")
      else if String.eqb date_from "" then raise (Exception "date_from is required")
      else if String.eqb date_to "" then raise (Exception "date_to is required")
      else if match columns with [] => true | _ => false end
      then raise (Exception "At least one column is required")
      else
        try_except
          (result <- PiwikAnalytics.get_metrics rt piwik website_id date_from
                       date_to columns clk ;;
           ret (json_dumps rt result))
          is_Exception reraise
  end.

Definition create_annotation (website_id content : string)
    (date : option string) (visibility : option string) (clk : clock) : M string :=
  let visibility := arg_default visibility "private" in
  match piwik with
  | None => raise (Exception not_initialized)
  | Some piwik =>
      if String.eqb website_id "" then raise (Exception "website_id is required")
      else if String.eqb content "" then raise (Exception "content is required")
      else if (150 <? py_len content)%nat
      then raise (Exception "content must be 150 characters or less")
      else if negb (existsb (String.eqb visibility) ["private"; "public"])
      then raise (Exception "visibility must be 'private' or 'public'")
      else
        try_except
          (result <- PiwikAnalytics.create_annotation rt piwik website_id content
                       date (Some visibility) clk ;;
           ret (json_dumps rt result))
          is_Exception reraise
  end.

Definition get_annotations (website_id : string) (clk : clock) : M string :=
  match piwik with
  | None => raise (Exception not_initialized)
  | Some piwik =>
      if String.eqb website_id "" then raise (Exception "website_id is required")
      else
        try_except
          (result <- PiwikAnalytics.get_annotations rt piwik website_id clk ;;
           ret (json_dumps rt result))
          is_Exception reraise
  end.

End Tools.


(** * Vocabulary of the properties *)

(** ** Column resolution, as the specification words it *)

(** A requested name is present in the table. *)
Definition in_table (column : string) : bool :=
  match assoc column PiwikAnalytics.metric_mapping with
  | Some _ => true
  | None => false
  end.

(** The entry of a name of the table. *)
Definition mapped_entry (column : string) : json :=
  JObj [("column_id",
         JStr (match assoc column PiwikAnalytics.metric_mapping with
               | Some column_id => column_id
               | None => ""
               end))].

(** The mapped entries of the names present in the table, in request
    order and multiplicity. *)
Definition resolved_entries (columns : list string) : list json :=
  map mapped_entry (filter in_table columns).

(** One warning for every name that is not in the table. *)
Definition unknown_warnings (columns : list string) : list log_record :=
  map (fun column => (WARNING, "Unknown column: " ++ column))
      (filter (fun column => negb (in_table column)) columns).

(** The columns the docstring of [get_metrics] lists as supported. *)
Definition documented_columns : list string :=
  [ "visits"; "pageviews"; "bounce_rate"; "avg_time_on_site";
    "unique_visitors"; "conversion_rate"; "revenue"; "cart_abandonment";
    "avg_order_value"; "exit_rate"; "entry_rate" ].

(** The body [get_metrics] posts. *)
Definition metrics_payload (website_id date_from date_to : string)
    (column_configs : list json) : json :=
  JObj [ ("website_id", JStr website_id);
         ("date_from", JStr date_from);
         ("date_to", JStr date_to);
         ("columns", JArr column_configs);
         ("format", JStr "json");
         ("column_format", JStr "id");
         ("offset", JInt 0);
         ("limit", JInt 100);
         ("options", JObj [("sampling", JFloat 1)]) ].

(** ** The token cache *)

(** The cache holds a token that counts as true, together with a
    non-zero expiry that the clock reading is strictly before. *)
Definition cached_and_fresh (st : store) (now : Q) : Prop :=
  truthy (token st) = true /\
  exists expiry,
    token_expiry st = Some expiry /\ ~ (expiry == 0)%Q /\ (now < expiry)%Q.

(** What the exchange branch of [_get_auth_token] computes, by cases on
    the platform's answer (the log left out). *)
Definition exchange_result (rt : runtime) (self : PiwikAnalytics.t) (now : Q)
    (st : store) : result json * store :=
  let req := PiwikAnalytics.token_request rt self in
  let st1 := {| token := token st; token_expiry := token_expiry st;
                sent := (sent st ++ [req])%list |} in
  match server rt (sent st) req with
  | TransportError msg => (Raise (Exception ("Authentication failed: " ++ msg)), st1)
  | Response r =>
      match http_error_msg r (BASE_URL rt ++ "/auth/token") with
      | Some msg => (Raise (Exception ("Authentication failed: " ++ msg)), st1)
      | None =>
          match body_json r with
          | DecodeError msg =>
              (Raise (Exception ("Authentication failed: " ++ msg)), st1)
          | Decoded data =>
              match outcome (py_getitem data "access_token" st1) with
              | Raise e => (Raise e, st1)
              | Ok tok =>
                  match as_float (dict_get data "expires_in" (JInt 3600)) with
                  | None =>
                      (Raise (TypeError
                                ("unsupported operand type(s) for +: 'float' and '"
                                 ++ type_name (dict_get data "expires_in" (JInt 3600))
                                 ++ "'")),
                       {| token := tok; token_expiry := token_expiry st;
                          sent := (sent st ++ [req])%list |})
                  | Some x =>
                      if overflows_float (dict_get data "expires_in" (JInt 3600))
                      then
                        (Raise (OverflowError "int too large to convert to float"),
                         {| token := tok; token_expiry := token_expiry st;
                            sent := (sent st ++ [req])%list |})
                      else
                        (Ok tok,
                         {| token := tok; token_expiry := Some (now + x)%Q;
                            sent := (sent st ++ [req])%list |})
                  end
              end
          end
      end
  end.

(** ** API calls *)

(** The detail [_make_api_call] adds to its message for an error
    response. *)
Definition error_detail (rt : runtime) (r : response) : string :=
  match body_json r with
  | Decoded error_details => "Error details: " ++ json_dumps rt error_details
  | DecodeError _ => "Response text: " ++ text r
  end.

(** What [_make_api_call] computes once the token is there and the
    request [req] is built, by cases on the platform's answer. *)
Definition call_result (rt : runtime) (url : string) (req : request) (st1 : store)
    : result json * store :=
  let st2 := {| token := token st1; token_expiry := token_expiry st1;
                sent := (sent st1 ++ [req])%list |} in
  match server rt (sent st1) req with
  | TransportError msg => (Raise (Exception ("API call failed: " ++ msg)), st2)
  | Response r =>
      match http_error_msg r url with
      | Some msg =>
          (Raise (Exception ((("API call failed: " ++ msg) ++ nl ++ error_detail rt r)
                             ++ nl ++ "Status code: " ++ string_of_Z (status_code r))),
           st2)
      | None =>
          (Ok (match body_json r with
               | Decoded j => j
               | DecodeError _ => JStr (text r)
               end), st2)
      end
  end.

(** The four methods [_make_api_call] supports. *)
Definition supported (method : string) : Prop :=
  method = "GET" \/ method = "POST" \/ method = "PUT" \/ method = "DELETE".

(** The request [_make_api_call] issues for a supported method. *)
Definition issued_request (method url : string) (headers : list (string * string))
    (data params : option json) : request :=
  {| req_method := method; req_url := url; req_headers := headers;
     req_auth := None; req_data := [];
     req_json := if String.eqb method "POST" || String.eqb method "PUT"
                 then data else None;
     req_params := if String.eqb method "GET" then params else None |}.

(** ** Errors of the tool registry *)

Definition ClientNotInitializedError : exn :=
  Exception "Piwik PRO API client not initialized. Check credentials.".

(** The credentials are missing: an identifier or secret that is absent
    or empty. *)
Definition missing_credentials (rt : runtime) : Prop :=
  truthy_env (PIWIK_PRO_CLIENT_ID rt) = false \/
  truthy_env (PIWIK_PRO_CLIENT_SECRET rt) = false.

(** The delegation of the [create_annotation] tool once its arguments
    are accepted. *)
Definition create_annotation_delegated (rt : runtime) (self : PiwikAnalytics.t)
    (website_id content : string) (date : option string) (visibility : string)
    (clk : clock) : M string :=
  try_except
    (result <- PiwikAnalytics.create_annotation rt self website_id content date
                 (Some visibility) clk ;;
     ret (json_dumps rt result))
    is_Exception reraise.

(** ** Sample runs *)

Definition sample_environ (dom : option string) : environ :=
  {| env_PIWIK_PRO_CLIENT_ID := Some "client";
     env_PIWIK_PRO_CLIENT_SECRET := Some "secret";
     env_PIWIK_PRO_DOMAIN := dom |}.

(** A platform that answers the n-th request it receives with the n-th
    outcome of a script, and drops the connection afterwards. *)
Definition scripted (answers : list http_outcome)
    : list request -> request -> http_outcome :=
  fun history _ => nth (length history) answers (TransportError "connection refused").

Definition sample_runtime (dom : option string) (answers : list http_outcome)
    : runtime :=
  {| os_environ := sample_environ dom;
     server := scripted answers;
     json_dumps := fun _ => "<json>";
     py_repr := fun _ => "<repr>" |}.

Definition sample_self : PiwikAnalytics.t :=
  {| PiwikAnalytics.client_id := "client";
     PiwikAnalytics.client_secret := "secret";
     PiwikAnalytics.domain := "analytics.piwik.pro" |}.

Definition at_time (t : Q) : clock := {| timestamp := t; today := "2024-05-01" |}.

(** A 200 answer of the token endpoint. *)
Definition token_answer (fields : list (string * json)) : http_outcome :=
  Response {| status_code := 200; reason := "OK"; text := "{...}";
              body_json := Decoded (JObj fields) |}.

(** An answer with a body that is not JSON. *)
Definition text_answer (status : Z) (why body : string) : http_outcome :=
  Response {| status_code := status; reason := why; text := body;
              body_json := DecodeError "Expecting value: line 1 column 1 (char 0)" |}.

(** An answer with a JSON body. *)
Definition json_answer (status : Z) (why : string) (body : json) : http_outcome :=
  Response {| status_code := status; reason := why; text := "{...}";
              body_json := Decoded body |}.

(** A store whose cache holds the token ["tok"] until 5000. *)
Definition warm_store : store :=
  {| token := JStr "tok"; token_expiry := Some 5000%Q; sent := [] |}.

(** A string of [n] letters. *)
Fixpoint letters (n : nat) : string :=
  match n with
  | O => ""
  | S n' => String "a" (letters n')
  end.

(** A string of [n] euro signs (U+20AC), three bytes each: E2 82 AC. *)
Fixpoint euros (n : nat) : string :=
  match n with
  | O => ""
  | S n' =>
      String (ascii_of_nat 226)
        (String (ascii_of_nat 130) (String (ascii_of_nat 172) (euros n')))
  end.


(** *** The scenarios the properties are run on *)

(** No credentials in the environment. *)
Definition bare_runtime : runtime :=
  {| os_environ := {| env_PIWIK_PRO_CLIENT_ID := None;
                      env_PIWIK_PRO_CLIENT_SECRET := None;
                      env_PIWIK_PRO_DOMAIN := None |};
     server := scripted [];
     json_dumps := fun _ => "<json>";
     py_repr := fun _ => "<repr>" |}.

(** A first exchange that succeeds with the token ["abc"]. *)
Definition rt_fresh_token : runtime :=
  sample_runtime None [token_answer [("access_token", JStr "abc")]].

(** A platform that hands out the empty string as access token. *)
Definition rt_empty_token : runtime :=
  sample_runtime None
    [ token_answer [("access_token", JStr ""); ("expires_in", JInt 3600)];
      token_answer [("access_token", JStr ""); ("expires_in", JInt 3600)] ].

(** The token endpoint is down. *)
Definition rt_auth_down : runtime :=
  sample_runtime None [text_answer 503 "Service Unavailable" "down"].

(** The token endpoint answers 304 with a token in the body. *)
Definition rt_auth_304 : runtime :=
  sample_runtime None
    [json_answer 304 "Not Modified" (JObj [("access_token", JStr "t")])].

(** The token endpoint answers 304 with a token and an expires_in that
    is not a number. *)
Definition rt_auth_304_bad_expiry : runtime :=
  sample_runtime None
    [json_answer 304 "Not Modified"
       (JObj [("access_token", JStr "t"); ("expires_in", JStr "soon")])].

(** The API answers 404 with a JSON body. *)
Definition rt_api_404 : runtime :=
  sample_runtime None
    [json_answer 404 "Not Found" (JObj [("error", JStr "no such app")])].

(** The API answers 200 with a body that is not JSON. *)
Definition rt_api_text : runtime :=
  sample_runtime None [text_answer 200 "OK" "pong"].

(** The API answers 304 with an empty body. *)
Definition rt_api_304 : runtime :=
  sample_runtime None [text_answer 304 "Not Modified" ""].

(** A domain set in the environment. *)
Definition rt_acme : runtime :=
  sample_runtime (Some "acme.piwik.pro") [text_answer 200 "OK" "pong"].

(** The same domain on a cold start: a token, then the answer. *)
Definition rt_acme_cold : runtime :=
  sample_runtime (Some "acme.piwik.pro")
    [ token_answer [("access_token", JStr "abc")]; text_answer 200 "OK" "pong" ].

Definition acme_self : PiwikAnalytics.t :=
  {| PiwikAnalytics.client_id := "client";
     PiwikAnalytics.client_secret := "secret";
     PiwikAnalytics.domain := "acme.piwik.pro" |}.

(** The request [_make_api_call] issues for [GET endpoint] with the
    token of [warm_store]. *)
Definition warm_get (rt : runtime) (endpoint : string) : request :=
  issued_request "GET" (BASE_URL rt ++ endpoint)
    (PiwikAnalytics.api_headers rt (JStr "tok")) None None.


(** *** Further scenarios *)

(** A token answer whose expires_in is not a number. *)
Definition rt_bad_expiry : runtime :=
  sample_runtime None
    [token_answer [("access_token", JStr "t"); ("expires_in", JStr "soon")]].

(** A token answer whose expires_in is an integer of 401 digits. *)
Definition rt_huge_expiry : runtime :=
  sample_runtime None
    [token_answer [("access_token", JStr "t"); ("expires_in", JInt (10 ^ 400))]].

(** A token answer without the access_token field. *)
Definition rt_no_access_token : runtime :=
  sample_runtime None [token_answer [("token_type", JStr "Bearer")]].

(** A token valid for zero seconds, handed out twice. *)
Definition rt_zero_lifetime : runtime :=
  sample_runtime None
    [ token_answer [("access_token", JStr "abc"); ("expires_in", JInt 0)];
      token_answer [("access_token", JStr "abc"); ("expires_in", JInt 0)] ].

(** ** The tools over the client *)

(** What a tool makes of the run of the client method it delegates to:
    the result serialised, or the exception turned into
    [Exception(str(e))]; the store is the client's. *)
Definition serialised (rt : runtime) (x : result json * store)
    : result string * store :=
  match x with
  | (Ok j, st1) => (Ok (json_dumps rt j), st1)
  | (Raise e, st1) => (Raise (Exception (str_exn e)), st1)
  end.

(** [float(v)] is exact: an [int] of a magnitude of at most 2^53 (every
    such integer is a double); a float or a bool is converted as it
    is. *)
Definition converts_exactly (v : json) : bool :=
  match v with
  | JInt n => (Z.abs n <=? 2 ^ 53)%Z
  | _ => true
  end.

(** A run that, when it fails, fails with a plain [Exception]. *)
Definition only_Exception {A : Type} (x : result A * store * list log_record)
    : Prop :=
  forall e, outcome x = Raise e -> exists msg, e = Exception msg.

(** The request of a GET without body and query parameters. *)
Definition get_request (rt : runtime) (tok : json) (url : string) : request :=
  {| req_method := "GET"; req_url := url;
     req_headers := PiwikAnalytics.api_headers rt tok;
     req_auth := None; req_data := []; req_json := None; req_params := None |}.

(** The envelope [create_annotation] posts. *)
Definition annotation_payload (website_id content date visibility : string) : json :=
  JObj [ ("data",
          JObj [ ("type", JStr "UserAnnotation");
                 ("attributes",
                  JObj [ ("content", JStr content);
                         ("website_id", JStr website_id);
                         ("date", JStr date);
                         ("visibility", JStr visibility) ]) ]) ].

(** The API cannot be reached. *)
Definition rt_api_unreachable : runtime :=
  sample_runtime None [TransportError "timed out"].

(** The API answers 401. *)
Definition rt_api_401 : runtime :=
  sample_runtime None [json_answer 401 "Unauthorized" (JObj [])].

(** A cold start: a token, then the list of websites. *)
Definition websites_body : json :=
  JObj [("data", JArr [JObj [("id", JStr "1"); ("name", JStr "Example")]])].

Definition rt_cold_start : runtime :=
  sample_runtime None
    [ token_answer [("access_token", JStr "abc")];
      json_answer 200 "OK" websites_body ].

(** A store whose cache holds another token until 5000. *)
Definition other_warm_store : store :=
  {| token := JStr "other"; token_expiry := Some 5000%Q; sent := [] |}.

(** * Properties *)

(** ** Auxiliary facts *)

Lemma Qltb_lt (x y : Q) : Qltb x y = true <-> (x < y)%Q.
Proof.
  unfold Qltb. rewrite negb_true_iff. split; intro H.
  - apply Qnot_le_lt. intro Hle. apply Qle_bool_iff in Hle. congruence.
  - destruct (Qle_bool y x) eqn:E; [|reflexivity].
    apply Qle_bool_iff in E. exfalso. apply (Qlt_not_le _ _ H E).
Qed.

Lemma Qeq_bool_false (x y : Q) : Qeq_bool x y = false <-> ~ (x == y)%Q.
Proof.
  split; intro H.
  - intro E. apply Qeq_bool_iff in E. congruence.
  - destruct (Qeq_bool x y) eqn:E; [|reflexivity].
    apply Qeq_bool_iff in E. contradiction.
Qed.

Lemma app_one_neq {A : Type} (l : list A) (x : A) : (l ++ [x])%list <> l.
Proof.
  intro H. apply (f_equal (@length A)) in H.
  rewrite length_app in H. simpl in H. lia.
Qed.

Lemma token_usable_iff (st : store) (now : Q) :
  PiwikAnalytics.token_usable st now = true <-> cached_and_fresh st now.
Proof.
  unfold PiwikAnalytics.token_usable, cached_and_fresh.
  rewrite andb_true_iff. split.
  - intros [Ht He]. split; [exact Ht|].
    destruct (token_expiry st) as [e|]; [|discriminate].
    apply andb_true_iff in He. destruct He as [Hz Hl].
    exists e. split; [reflexivity|]. split.
    + apply Qeq_bool_false. now apply negb_true_iff.
    + now apply Qltb_lt.
  - intros [Ht [e [He [Hz Hl]]]]. split; [exact Ht|].
    rewrite He. apply andb_true_iff. split.
    + apply negb_true_iff. now apply Qeq_bool_false.
    + now apply Qltb_lt.
Qed.

Lemma token_usable_false (st : store) (now : Q) :
  ~ cached_and_fresh st now -> PiwikAnalytics.token_usable st now = false.
Proof.
  intro H. destruct (PiwikAnalytics.token_usable st now) eqn:E; [|reflexivity].
  exfalso. apply H. now apply token_usable_iff.
Qed.

(** *** The loop over the requested columns *)

Lemma resolved_entries_cons (c : string) (cs : list string) :
  resolved_entries (c :: cs)
  = match assoc c PiwikAnalytics.metric_mapping with
    | Some column_id => JObj [("column_id", JStr column_id)] :: resolved_entries cs
    | None => resolved_entries cs
    end.
Proof.
  unfold resolved_entries. cbn [filter]. unfold in_table at 1.
  destruct (assoc c PiwikAnalytics.metric_mapping) as [column_id|] eqn:E.
  - cbn [map]. unfold mapped_entry at 1. now rewrite E.
  - reflexivity.
Qed.

Lemma unknown_warnings_cons (c : string) (cs : list string) :
  unknown_warnings (c :: cs)
  = match assoc c PiwikAnalytics.metric_mapping with
    | Some _ => unknown_warnings cs
    | None => (WARNING, "Unknown column: " ++ c) :: unknown_warnings cs
    end.
Proof.
  unfold unknown_warnings. cbn [filter]. unfold in_table at 1.
  destruct (assoc c PiwikAnalytics.metric_mapping); reflexivity.
Qed.

Lemma resolve_fold (columns : list string) (configs : list json)
    (warnings : list log_record) :
  fold_left PiwikAnalytics.resolve_step columns (configs, warnings)
  = ((configs ++ resolved_entries columns)%list,
     (warnings ++ unknown_warnings columns)%list).
Proof.
  revert configs warnings.
  induction columns as [|c cs IH]; intros configs warnings.
  - unfold resolved_entries, unknown_warnings. simpl. now rewrite !app_nil_r.
  - cbn [fold_left]. unfold PiwikAnalytics.resolve_step at 2.
    rewrite resolved_entries_cons, unknown_warnings_cons.
    destruct (assoc c PiwikAnalytics.metric_mapping) as [column_id|];
      cbn [fst snd]; rewrite IH, <- app_assoc; reflexivity.
Qed.

Lemma resolve_columns_spec (columns : list string) :
  PiwikAnalytics.resolve_columns columns
  = (resolved_entries columns, unknown_warnings columns).
Proof.
  unfold PiwikAnalytics.resolve_columns. now rewrite resolve_fold.
Qed.

Lemma resolved_entries_app (l1 l2 : list string) :
  resolved_entries (l1 ++ l2) = (resolved_entries l1 ++ resolved_entries l2)%list.
Proof.
  unfold resolved_entries. now rewrite filter_app, map_app.
Qed.

(** *** The two branches of [_get_auth_token] *)

Lemma get_auth_token_cached (rt : runtime) (self : PiwikAnalytics.t)
    (clk : clock) (st : store) :
  PiwikAnalytics.token_usable st (timestamp clk) = true ->
  PiwikAnalytics._get_auth_token rt self clk st
  = (Ok (token st), st, [(DEBUG, "Using existing auth token")]).
Proof.
  intro H. unfold PiwikAnalytics._get_auth_token, bind, get_store.
  rewrite H. reflexivity.
Qed.

Lemma get_auth_token_exchange (rt : runtime) (self : PiwikAnalytics.t)
    (clk : clock) (st : store) :
  PiwikAnalytics.token_usable st (timestamp clk) = false ->
  fst (PiwikAnalytics._get_auth_token rt self clk st)
  = exchange_result rt self (timestamp clk) st.
Proof.
  intro H. unfold PiwikAnalytics._get_auth_token, exchange_result, bind, get_store.
  rewrite H. unfold try_except, bind, logger, http.
  destruct (server rt (sent st) (PiwikAnalytics.token_request rt self)) as [msg|r]; cbn.
  - reflexivity.
  - unfold raise_for_status.
    destruct (http_error_msg r _) as [m|]; cbn; [reflexivity|].
    unfold response_json. destruct (body_json r) as [data|m]; cbn; [|reflexivity].
    unfold py_getitem.
    destruct data; cbn; try reflexivity.
    destruct (assoc "access_token" m) as [tok|]; cbn; [|reflexivity].
    unfold float_add.
    destruct (as_float _); [|reflexivity].
    destruct (overflows_float _); reflexivity.
Qed.

(** The exchange branch issues the token request and nothing else. *)
Lemma exchange_result_sent (rt : runtime) (self : PiwikAnalytics.t) (now : Q)
    (st : store) :
  sent (snd (exchange_result rt self now st))
  = (sent st ++ [PiwikAnalytics.token_request rt self])%list.
Proof.
  unfold exchange_result.
  destruct (server rt (sent st) _) as [msg|r]; [reflexivity|].
  destruct (http_error_msg r _); [reflexivity|].
  destruct (body_json r) as [data|]; [|reflexivity].
  destruct (outcome _); [|reflexivity].
  destruct (as_float _); [|reflexivity].
  destruct (overflows_float _); reflexivity.
Qed.

(** *** [_make_api_call], by cases *)

Lemma make_api_call_run (rt : runtime) (self : PiwikAnalytics.t)
    (endpoint method : string) (data params : option json) (clk : clock)
    (st : store) :
  fst (PiwikAnalytics._make_api_call rt self endpoint method data params clk st)
  = match PiwikAnalytics._get_auth_token rt self clk st with
    | (Raise e, st1, _) => (Raise e, st1)
    | (Ok tok, st1, _) =>
        match PiwikAnalytics.api_request method (BASE_URL rt ++ endpoint)
                (PiwikAnalytics.api_headers rt tok) data params with
        | None => (Raise (ValueError ("Unsupported HTTP method: " ++ method)), st1)
        | Some req => call_result rt (BASE_URL rt ++ endpoint) req st1
        end
    end.
Proof.
  unfold PiwikAnalytics._make_api_call, bind, when, logger, ret.
  destruct (truthy_arg data), (truthy_arg params);
    destruct (PiwikAnalytics._get_auth_token rt self clk st) as [[[tok|e] st1] lg];
    try reflexivity;
    unfold try_except, bind, call_result, error_detail;
    (destruct (PiwikAnalytics.api_request _ _ _ _ _) as [req|]; [|reflexivity]);
    unfold http;
    (destruct (server rt (sent st1) req) as [msg|r]; [reflexivity|]);
    cbn; unfold raise_for_status;
    (destruct (http_error_msg r _) as [m|]; cbn);
    unfold response_json; destruct (body_json r); reflexivity.
Qed.

Lemma api_request_supported (method url : string)
    (headers : list (string * string)) (data params : option json) :
  supported method ->
  PiwikAnalytics.api_request method url headers data params
  = Some (issued_request method url headers data params).
Proof.
  intros [H|[H|[H|H]]]; subst; reflexivity.
Qed.

Lemma call_result_sent (rt : runtime) (url : string) (req : request) (st1 : store) :
  sent (snd (call_result rt url req st1)) = (sent st1 ++ [req])%list.
Proof.
  unfold call_result.
  destruct (server rt (sent st1) req) as [msg|r]; [reflexivity|].
  destruct (http_error_msg r url); reflexivity.
Qed.

(** *** [get_metrics] as one API call *)

Lemma get_metrics_run (rt : runtime) (self : PiwikAnalytics.t)
    (website_id date_from date_to : string) (columns : list string)
    (clk : clock) (st : store) :
  PiwikAnalytics.get_metrics rt self website_id date_from date_to columns clk st
  = (let '(r, st', lg) :=
       PiwikAnalytics._make_api_call rt self "/api/analytics/v1/query" "POST"
         (Some (metrics_payload website_id date_from date_to
                  (resolved_entries columns)))
         None clk st in
     (r, st', (unknown_warnings columns ++ lg)%list)).
Proof.
  unfold PiwikAnalytics.get_metrics. rewrite resolve_columns_spec.
  unfold bind, metrics_payload.
  destruct (PiwikAnalytics._make_api_call _ _ _ _ _ _ _ _) as [[r st'] lg].
  reflexivity.
Qed.

(** ** Column resolution *)

(** C2. For every list of requested names, the loop of [get_metrics]
    yields exactly the mapped entries of the names present in the table,
    in request order and multiplicity, and one warning for every other
    name; the call then proceeds as the POST of the payload built from
    the resolved entries.  ["visits"] maps to ["sessions"], and
    [["visits"; "bogus_column"]] resolves to the entry of ["visits"]
    alone. *)
Theorem get_metrics_resolves_columns (rt : runtime) (self : PiwikAnalytics.t)
    (website_id date_from date_to : string) (columns : list string)
    (clk : clock) (st : store) :
  PiwikAnalytics.resolve_columns columns
  = (resolved_entries columns, unknown_warnings columns)
  /\ PiwikAnalytics.get_metrics rt self website_id date_from date_to columns clk st
     = (let '(r, st', lg) :=
          PiwikAnalytics._make_api_call rt self "/api/analytics/v1/query" "POST"
            (Some (metrics_payload website_id date_from date_to
                     (resolved_entries columns)))
            None clk st in
        (r, st', (unknown_warnings columns ++ lg)%list))
  /\ assoc "visits" PiwikAnalytics.metric_mapping = Some "sessions"
  /\ PiwikAnalytics.resolve_columns ["visits"; "bogus_column"]
     = ([JObj [("column_id", JStr "sessions")]],
        [(WARNING, "Unknown column: bogus_column")]).
Proof.
  split; [apply resolve_columns_spec|].
  split; [apply get_metrics_run|split; reflexivity].
Qed.

(** C8. ["avg_order_value"] is among the documented columns and has no
    entry in the table: for every list of requested names, the resolved
    entries are those of the list with every occurrence of the name
    removed, and each occurrence is answered with a warning.  Every other
    documented column is in the table. *)
Theorem avg_order_value_never_resolves (columns : list string) :
  In "avg_order_value" documented_columns
  /\ assoc "avg_order_value" PiwikAnalytics.metric_mapping = None
  /\ fst (PiwikAnalytics.resolve_columns columns)
     = fst (PiwikAnalytics.resolve_columns
              (filter (fun c => negb (String.eqb c "avg_order_value")) columns))
  /\ (forall l1 l2,
        fst (PiwikAnalytics.resolve_columns (l1 ++ "avg_order_value" :: l2))
        = (fst (PiwikAnalytics.resolve_columns l1)
           ++ fst (PiwikAnalytics.resolve_columns l2))%list
        /\ In (WARNING, "Unknown column: avg_order_value")
              (snd (PiwikAnalytics.resolve_columns (l1 ++ "avg_order_value" :: l2))))
  /\ Forall (fun c => c = "avg_order_value" \/ in_table c = true) documented_columns.
Proof.
  split; [simpl; tauto|].
  split; [reflexivity|].
  split.
  - rewrite !resolve_columns_spec. cbn [fst].
    induction columns as [|c cs IH]; [reflexivity|].
    cbn [filter]. destruct (String.eqb c "avg_order_value") eqn:E; cbn [negb].
    + apply String.eqb_eq in E. subst c.
      rewrite resolved_entries_cons. exact IH.
    + rewrite !resolved_entries_cons.
      destruct (assoc c PiwikAnalytics.metric_mapping); [now rewrite IH|exact IH].
  - split.
    + intros l1 l2. rewrite !resolve_columns_spec. cbn [fst snd]. split.
      * rewrite resolved_entries_app, resolved_entries_cons. reflexivity.
      * unfold unknown_warnings. rewrite filter_app, map_app.
        apply in_or_app. right. simpl. now left.
    + unfold documented_columns.
      repeat (apply Forall_cons; [first [right; reflexivity | left; reflexivity]|]).
      apply Forall_nil.
Qed.

(** ** The metrics query *)

(** C7. For every invocation of [get_metrics]: when the token is there,
    exactly one request follows, the POST to the metrics endpoint whose
    body carries the given website_id, date_from and date_to, the
    resolved column list, and the fixed format "json", column_format
    "id", offset 0, limit 100 and sampling 1.0; when the token cannot be
    had, nothing more is sent. *)
Theorem get_metrics_payload (rt : runtime) (self : PiwikAnalytics.t)
    (website_id date_from date_to : string) (columns : list string)
    (clk : clock) (st : store) :
  let run := PiwikAnalytics.get_metrics rt self website_id date_from date_to
               columns clk st in
  match PiwikAnalytics._get_auth_token rt self clk st with
  | (Ok tok, st1, _) =>
      sent (final run)
      = (sent st1 ++
         [ {| req_method := "POST";
              req_url := (BASE_URL rt ++ "/api/analytics/v1/query")%string;
              req_headers := [ ("Authorization", ("Bearer " ++ py_str rt tok)%string);
                               ("Content-Type", "application/json") ];
              req_auth := None;
              req_data := [];
              req_json :=
                Some (JObj [ ("website_id", JStr website_id);
                             ("date_from", JStr date_from);
                             ("date_to", JStr date_to);
                             ("columns",
                              JArr (fst (PiwikAnalytics.resolve_columns columns)));
                             ("format", JStr "json");
                             ("column_format", JStr "id");
                             ("offset", JInt 0);
                             ("limit", JInt 100);
                             ("options", JObj [("sampling", JFloat 1)]) ]);
              req_params := None |} ])%list
  | (Raise _, st1, _) => final run = st1
  end.
Proof.
  intro run. subst run.
  rewrite get_metrics_run, resolve_columns_spec. cbn [fst].
  pose proof (make_api_call_run rt self "/api/analytics/v1/query" "POST"
                (Some (metrics_payload website_id date_from date_to
                         (resolved_entries columns))) None clk st) as H.
  destruct (PiwikAnalytics._make_api_call _ _ _ _ _ _ _ _) as [[r st'] lg].
  cbn [fst] in H. unfold final. cbn [fst snd].
  destruct (PiwikAnalytics._get_auth_token rt self clk st) as [[[tok|e] st1] lg1].
  - cbn [PiwikAnalytics.api_request String.eqb Ascii.eqb Bool.eqb] in H.
    apply (f_equal snd) in H. cbn [snd] in H. rewrite H.
    rewrite call_result_sent. reflexivity.
  - now inversion H.
Qed.

(** ** API calls *)

Lemma get_auth_token_sent (rt : runtime) (self : PiwikAnalytics.t) (clk : clock)
    (st : store) :
  let run := PiwikAnalytics._get_auth_token rt self clk st in
  (PiwikAnalytics.token_usable st (timestamp clk) = true /\ final run = st)
  \/ (PiwikAnalytics.token_usable st (timestamp clk) = false
      /\ sent (final run) = (sent st ++ [PiwikAnalytics.token_request rt self])%list).
Proof.
  intro run. subst run.
  destruct (PiwikAnalytics.token_usable st (timestamp clk)) eqn:E.
  - left. split; [reflexivity|]. now rewrite get_auth_token_cached.
  - right. split; [reflexivity|].
    unfold final. rewrite (get_auth_token_exchange rt self clk st E).
    apply exchange_result_sent.
Qed.

Lemma make_api_call_with_token (rt : runtime) (self : PiwikAnalytics.t)
    (endpoint method : string) (data params : option json) (clk : clock)
    (st : store) (tok : json) (st1 : store) (lg : list log_record) :
  supported method ->
  PiwikAnalytics._get_auth_token rt self clk st = (Ok tok, st1, lg) ->
  fst (PiwikAnalytics._make_api_call rt self endpoint method data params clk st)
  = call_result rt (BASE_URL rt ++ endpoint)
      (issued_request method (BASE_URL rt ++ endpoint)
         (PiwikAnalytics.api_headers rt tok) data params) st1.
Proof.
  intros Hm Ha. rewrite make_api_call_run, Ha.
  now rewrite (api_request_supported _ _ _ _ _ Hm).
Qed.

Lemma piwik_domain (rt : runtime) (self : PiwikAnalytics.t) :
  piwik rt = Some self -> PiwikAnalytics.domain self = PIWIK_PRO_DOMAIN rt.
Proof.
  unfold piwik. destruct (_ && _); [|discriminate].
  intro H. inversion H. reflexivity.
Qed.

(** C9. For the client the program builds from its environment, the
    configured domain [d] is the value of the domain variable, or
    analytics.piwik.pro when the variable is absent, and every request of
    an API call goes to [https://d]: the token exchange to
    [https://d/auth/token], the call itself to [https://d] followed by
    the endpoint path. *)
Theorem api_call_url (rt : runtime) (self : PiwikAnalytics.t)
    (endpoint method : string) (data params : option json) (clk : clock)
    (st : store) :
  piwik rt = Some self ->
  supported method ->
  let d := PiwikAnalytics.domain self in
  let run := PiwikAnalytics._make_api_call rt self endpoint method data params
               clk st in
  d = match env_PIWIK_PRO_DOMAIN (os_environ rt) with
      | Some x => x
      | None => "analytics.piwik.pro"
      end
  /\ req_url (PiwikAnalytics.token_request rt self) = "https://" ++ d ++ "/auth/token"
  /\ match PiwikAnalytics._get_auth_token rt self clk st with
     | (Ok tok, st1, _) =>
         exists req,
           sent (final run) = (sent st1 ++ [req])%list
           /\ req_method req = method
           /\ req_url req = "https://" ++ d ++ endpoint
     | (Raise _, st1, _) => final run = st1
     end
  /\ exists new,
       sent (final run) = (sent st ++ new)%list
       /\ Forall (fun req => req_url req = "https://" ++ d ++ "/auth/token"
                             \/ req_url req = "https://" ++ d ++ endpoint) new.
Proof.
  intros Hp Hm d run. subst d run.
  rewrite (piwik_domain rt self Hp).
  assert (Hcall :
    match PiwikAnalytics._get_auth_token rt self clk st with
    | (Ok tok, st1, _) =>
        exists req,
          sent (final (PiwikAnalytics._make_api_call rt self endpoint method
                         data params clk st))
          = (sent st1 ++ [req])%list
          /\ req_method req = method
          /\ req_url req = "https://" ++ PIWIK_PRO_DOMAIN rt ++ endpoint
    | (Raise _, st1, _) =>
        final (PiwikAnalytics._make_api_call rt self endpoint method data params
                 clk st) = st1
    end).
  { destruct (PiwikAnalytics._get_auth_token rt self clk st)
      as [[[tok|e] st1] lg] eqn:Ha.
    - eexists. unfold final.
      rewrite (make_api_call_with_token rt self endpoint method data params clk
                 st tok st1 lg Hm Ha).
      rewrite call_result_sent. split; [reflexivity|]. split; reflexivity.
    - unfold final. now rewrite make_api_call_run, Ha. }
  split; [reflexivity|]. split; [reflexivity|]. split; [exact Hcall|].
  pose proof (get_auth_token_sent rt self clk st) as Hs. cbv zeta in Hs.
  destruct (PiwikAnalytics._get_auth_token rt self clk st) as [[[tok|e] st1] lg];
    unfold final in Hs; cbn [fst snd] in Hs.
  - destruct Hcall as [req [Hsent [_ Hurl]]].
    destruct Hs as [[_ Hs]|[_ Hs]]; rewrite Hsent.
    + rewrite Hs. exists [req]. split; [reflexivity|].
      constructor; [now right|constructor].
    + rewrite Hs, <- app_assoc. eexists. split; [reflexivity|].
      constructor; [now left|]. constructor; [now right|constructor].
  - rewrite Hcall. destruct Hs as [[_ Hs]|[_ Hs]].
    + rewrite Hs. exists []. split; [now rewrite app_nil_r|constructor].
    + rewrite Hs. eexists. split; [reflexivity|].
      constructor; [now left|constructor].
Qed.

(** C6. For every API call that receives a 2xx response: a body that is
    not valid JSON is returned as the raw response text, the call
    succeeding, and a body that is valid JSON is returned parsed. *)
Theorem api_call_success_body (rt : runtime) (self : PiwikAnalytics.t)
    (endpoint method : string) (data params : option json) (clk : clock)
    (st : store) (tok : json) (st1 : store) (lg : list log_record)
    (r : response) :
  supported method ->
  PiwikAnalytics._get_auth_token rt self clk st = (Ok tok, st1, lg) ->
  server rt (sent st1)
    (issued_request method (BASE_URL rt ++ endpoint)
       (PiwikAnalytics.api_headers rt tok) data params) = Response r ->
  (200 <= status_code r < 300)%Z ->
  let run := PiwikAnalytics._make_api_call rt self endpoint method data params
               clk st in
  (forall msg, body_json r = DecodeError msg -> outcome run = Ok (JStr (text r)))
  /\ (forall j, body_json r = Decoded j -> outcome run = Ok j).
Proof.
  intros Hm Ha Hs Hr run. subst run. unfold outcome.
  rewrite (make_api_call_with_token rt self endpoint method data params clk st
             tok st1 lg Hm Ha).
  unfold call_result. rewrite Hs.
  assert (Hok : http_error_msg r (BASE_URL rt ++ endpoint) = None).
  { unfold http_error_msg.
    destruct (400 <=? status_code r)%Z eqn:E1; [apply Z.leb_le in E1; lia|].
    destruct (500 <=? status_code r)%Z eqn:E2; [apply Z.leb_le in E2; lia|].
    reflexivity. }
  rewrite Hok. cbn [fst].
  split; intros x Hx; rewrite Hx; reflexivity.
Qed.

(** C5, as the code has it.  For every API call that receives a response
    with a status in 400..599, the call fails with an [Exception] whose
    message ends with the HTTP status code and carries, before it, the
    response body parsed as JSON when it is valid JSON and the raw
    response text otherwise. *)
Theorem api_call_error_status (rt : runtime) (self : PiwikAnalytics.t)
    (endpoint method : string) (data params : option json) (clk : clock)
    (st : store) (tok : json) (st1 : store) (lg : list log_record)
    (r : response) :
  supported method ->
  PiwikAnalytics._get_auth_token rt self clk st = (Ok tok, st1, lg) ->
  server rt (sent st1)
    (issued_request method (BASE_URL rt ++ endpoint)
       (PiwikAnalytics.api_headers rt tok) data params) = Response r ->
  (400 <= status_code r < 600)%Z ->
  let run := PiwikAnalytics._make_api_call rt self endpoint method data params
               clk st in
  exists str_e,
    http_error_msg r (BASE_URL rt ++ endpoint) = Some str_e
    /\ outcome run
       = Raise (Exception
                  ((("API call failed: " ++ str_e) ++ nl ++ error_detail rt r)
                   ++ nl ++ "Status code: " ++ string_of_Z (status_code r)))
    /\ (forall j, body_json r = Decoded j ->
          error_detail rt r = "Error details: " ++ json_dumps rt j)
    /\ (forall msg, body_json r = DecodeError msg ->
          error_detail rt r = "Response text: " ++ text r).
Proof.
  intros Hm Ha Hs Hr run. subst run. unfold outcome.
  rewrite (make_api_call_with_token rt self endpoint method data params clk st
             tok st1 lg Hm Ha).
  unfold call_result. rewrite Hs.
  assert (Herr : exists str_e,
             http_error_msg r (BASE_URL rt ++ endpoint) = Some str_e).
  { unfold http_error_msg.
    destruct (400 <=? status_code r)%Z eqn:E1; [|apply Z.leb_gt in E1; lia].
    destruct (status_code r <? 500)%Z eqn:E2; cbn [andb]; [eexists; reflexivity|].
    destruct (500 <=? status_code r)%Z eqn:E3;
      [|apply Z.leb_gt in E3; apply Z.ltb_ge in E2; lia].
    destruct (status_code r <? 600)%Z eqn:E4; cbn [andb]; [eexists; reflexivity|].
    apply Z.ltb_ge in E4. lia. }
  destruct Herr as [str_e Herr]. exists str_e. rewrite Herr. cbn [fst].
  split; [reflexivity|]. split; [reflexivity|].
  unfold error_detail. split; intros x Hx; rewrite Hx; reflexivity.
Qed.

(** ** The tool registry *)

Lemma missing_credentials_no_client (rt : runtime) :
  missing_credentials rt -> piwik rt = None.
Proof.
  unfold missing_credentials, piwik. intros [H|H]; rewrite H.
  - reflexivity.
  - now rewrite andb_false_r.
Qed.

(** C4. When the credentials are missing the client is never built, and
    every one of the five tools fails at once with
    [ClientNotInitializedError], whatever its arguments, leaving the
    store as it was: no request is sent. *)
Theorem tools_fail_without_client (rt : runtime) (clk : clock) (st : store) :
  missing_credentials rt ->
  piwik rt = None
  /\ (outcome (list_websites rt clk st) = Raise ClientNotInitializedError
      /\ final (list_websites rt clk st) = st)
  /\ (forall website_id,
        outcome (get_website_details rt website_id clk st)
        = Raise ClientNotInitializedError
        /\ final (get_website_details rt website_id clk st) = st)
  /\ (forall website_id date_from date_to columns,
        outcome (get_metrics rt website_id date_from date_to columns clk st)
        = Raise ClientNotInitializedError
        /\ final (get_metrics rt website_id date_from date_to columns clk st) = st)
  /\ (forall website_id content date visibility,
        outcome (create_annotation rt website_id content date visibility clk st)
        = Raise ClientNotInitializedError
        /\ final (create_annotation rt website_id content date visibility clk st)
           = st)
  /\ (forall website_id,
        outcome (get_annotations rt website_id clk st)
        = Raise ClientNotInitializedError
        /\ final (get_annotations rt website_id clk st) = st).
Proof.
  intro H. apply missing_credentials_no_client in H.
  split; [exact H|].
  unfold list_websites, get_website_details, get_metrics, create_annotation,
    get_annotations.
  rewrite H. repeat split.
Qed.

(** An API call with a supported method sends at least one request. *)
Lemma make_api_call_sends (rt : runtime) (self : PiwikAnalytics.t)
    (endpoint method : string) (data params : option json) (clk : clock)
    (st : store) :
  supported method ->
  exists req new,
    sent (final (PiwikAnalytics._make_api_call rt self endpoint method data
                   params clk st))
    = (sent st ++ req :: new)%list.
Proof.
  intro Hm. unfold final.
  pose proof (get_auth_token_sent rt self clk st) as Hs. cbv zeta in Hs.
  unfold final in Hs.
  destruct (PiwikAnalytics._get_auth_token rt self clk st)
    as [[[tok|e] st1] lg] eqn:Ha; cbn [fst snd] in Hs.
  - rewrite (make_api_call_with_token rt self endpoint method data params clk st
               tok st1 lg Hm Ha).
    rewrite call_result_sent.
    destruct Hs as [[_ Hs]|[_ Hs]]; rewrite Hs.
    + eexists. exists []. reflexivity.
    + rewrite <- app_assoc. eexists. eexists. reflexivity.
  - rewrite make_api_call_run, Ha. cbn [snd].
    destruct Hs as [[Hu _]|[_ Hs]].
    + rewrite (get_auth_token_cached rt self clk st Hu) in Ha. discriminate.
    + rewrite Hs. eexists. exists []. reflexivity.
Qed.

Lemma delegated_final {A : Type} (rt : runtime) (m : M A) (f : A -> string)
    (st : store) :
  final (try_except (x <- m ;; ret (f x)) is_Exception reraise st) = final (m st).
Proof.
  unfold try_except, bind, ret, reraise, raise, final.
  destruct (m st) as [[[a|e] st1] lg]; reflexivity.
Qed.

(** C3. With the client built, [create_annotation] checks its arguments
    before anything is sent: an empty content, a content of more than 150
    characters (code points), or a visibility other than "private" and
    "public" makes
    the tool fail with the store untouched; a non-empty content of at
    most 150 characters with an admissible visibility (and a non-empty
    website_id) is accepted, the call is delegated to the client and
    reaches the network.  A visibility left out is "private". *)
Theorem create_annotation_validation (rt : runtime) (self : PiwikAnalytics.t)
    (website_id content : string) (date visibility : option string)
    (clk : clock) (st : store) :
  piwik rt = Some self ->
  let vis := arg_default visibility "private" in
  let run := create_annotation rt website_id content date visibility clk st in
  (content = "" \/ (150 < py_len content)%nat
   \/ (vis <> "private" /\ vis <> "public") ->
   exists msg, run = (Raise (Exception msg), st, []))
  /\ (website_id <> "" -> content = "" ->
      run = (Raise (Exception "content is required"), st, []))
  /\ (website_id <> "" -> (150 < py_len content)%nat ->
      run = (Raise (Exception "content must be 150 characters or less"), st, []))
  /\ (website_id <> "" -> content <> "" -> (py_len content <= 150)%nat ->
      vis <> "private" -> vis <> "public" ->
      run = (Raise (Exception "visibility must be 'private' or 'public'"), st, []))
  /\ (website_id <> "" -> content <> "" -> (py_len content <= 150)%nat ->
      vis = "private" \/ vis = "public" ->
      run = create_annotation_delegated rt self website_id content date vis clk st
      /\ sent (final run) <> sent st)
  /\ (visibility = None -> vis = "private").
Proof.
  intros Hp vis run. subst run. unfold create_annotation. rewrite Hp.
  fold vis.
  assert (Hlen : forall s, s = "" -> (150 <? py_len s)%nat = false)
    by (intros s ->; reflexivity).
  assert (Hvis : vis <> "private" -> vis <> "public" ->
                 negb (existsb (String.eqb vis) ["private"; "public"]) = true).
  { intros H1 H2. cbn [existsb].
    apply String.eqb_neq in H1, H2. now rewrite H1, H2. }
  assert (Hvis' : vis = "private" \/ vis = "public" ->
                  negb (existsb (String.eqb vis) ["private"; "public"]) = false).
  { intros [H|H]; rewrite H; reflexivity. }
  split; [|split; [|split; [|split; [|split]]]].
  - intros H. destruct (String.eqb website_id ""); [now eexists|].
    destruct (String.eqb content "") eqn:Ec; [now eexists|].
    destruct (150 <? py_len content)%nat eqn:El; [now eexists|].
    destruct H as [H|[H|[H1 H2]]].
    + subst content. discriminate.
    + apply Nat.ltb_lt in H. congruence.
    + rewrite (Hvis H1 H2). now eexists.
  - intros Hw Hc. apply String.eqb_neq in Hw. rewrite Hw. subst content.
    reflexivity.
  - intros Hw Hl. apply String.eqb_neq in Hw. rewrite Hw.
    destruct (String.eqb content "") eqn:Ec.
    + apply String.eqb_eq in Ec. subst content. simpl in Hl. lia.
    + apply Nat.ltb_lt in Hl. now rewrite Hl.
  - intros Hw Hc Hl H1 H2.
    apply String.eqb_neq in Hw, Hc. rewrite Hw, Hc.
    apply Nat.ltb_ge in Hl. rewrite Hl. now rewrite (Hvis H1 H2).
  - intros Hw Hc Hl Hv.
    apply String.eqb_neq in Hw, Hc. rewrite Hw, Hc.
    apply Nat.ltb_ge in Hl. rewrite Hl, (Hvis' Hv).
    split; [reflexivity|].
    change (sent (final (create_annotation_delegated rt self website_id content
                           date vis clk st)) <> sent st).
    unfold create_annotation_delegated.
    rewrite (delegated_final rt). unfold PiwikAnalytics.create_annotation.
    destruct (make_api_call_sends rt self
                "/api/analytics/v1/manage/annotation/user/" "POST"
                (Some
                   (JObj
                      [("data",
                        JObj
                          [("type", JStr "UserAnnotation");
                           ("attributes",
                            JObj
                              [("content", JStr content);
                               ("website_id", JStr website_id);
                               ("date", JStr (str_or date (today clk)));
                               ("visibility",
                                JStr (arg_default (Some vis) "private"))])])]))
                None clk st) as [req [new Hs]];
      [right; left; reflexivity|].
    rewrite Hs. intro Heq.
    apply (f_equal (@length request)) in Heq.
    rewrite length_app in Heq. simpl in Heq. lia.
  - intros ->. reflexivity.
Qed.

(** ** The token cache *)

(** C1, as the code has it.  [_get_auth_token] returns the cached token
    and leaves the store alone exactly when the cache holds a token that
    counts as true (a non-empty string), with a non-zero expiry that the
    clock reading is strictly before.  Otherwise exactly one request is
    sent, the token exchange; when the call then succeeds, the platform
    answered with an object holding the token under "access_token", and
    the token is cached with expiry = now + expires_in, where expires_in
    is 3600 when the answer has no such field.  Consequently, when a call
    that had to exchange is followed by a call for which the new cache
    entry is usable, the second call returns the same token and the two
    calls together sent one request. *)
Theorem get_auth_token_caching (rt : runtime) (self : PiwikAnalytics.t)
    (clk : clock) (st : store) :
  let now := timestamp clk in
  let run := PiwikAnalytics._get_auth_token rt self clk st in
  ((outcome run = Ok (token st) /\ final run = st) <-> cached_and_fresh st now)
  /\ (~ cached_and_fresh st now ->
      sent (final run) = (sent st ++ [PiwikAnalytics.token_request rt self])%list)
  /\ (~ cached_and_fresh st now ->
      forall tok, outcome run = Ok tok ->
        exists r fields expires_in,
          server rt (sent st) (PiwikAnalytics.token_request rt self) = Response r
          /\ body_json r = Decoded (JObj fields)
          /\ assoc "access_token" fields = Some tok
          /\ as_float (match assoc "expires_in" fields with
                       | Some v => v
                       | None => JInt 3600
                       end) = Some expires_in
          /\ token (final run) = tok
          /\ token_expiry (final run) = Some (now + expires_in)%Q)
  /\ (~ cached_and_fresh st now ->
      forall tok clk2, outcome run = Ok tok ->
        cached_and_fresh (final run) (timestamp clk2) ->
        let run2 := PiwikAnalytics._get_auth_token rt self clk2 (final run) in
        outcome run2 = Ok tok
        /\ sent (final run2)
           = (sent st ++ [PiwikAnalytics.token_request rt self])%list).
Proof.
  intros now run.
  assert (Hsent : ~ cached_and_fresh st now ->
                  sent (final run)
                  = (sent st ++ [PiwikAnalytics.token_request rt self])%list).
  { intro Hn. subst run. unfold final.
    rewrite (get_auth_token_exchange rt self clk st (token_usable_false _ _ Hn)).
    apply exchange_result_sent. }
  assert (Hsucc : ~ cached_and_fresh st now ->
      forall tok, outcome run = Ok tok ->
        exists r fields expires_in,
          server rt (sent st) (PiwikAnalytics.token_request rt self) = Response r
          /\ body_json r = Decoded (JObj fields)
          /\ assoc "access_token" fields = Some tok
          /\ as_float (match assoc "expires_in" fields with
                       | Some v => v
                       | None => JInt 3600
                       end) = Some expires_in
          /\ token (final run) = tok
          /\ token_expiry (final run) = Some (now + expires_in)%Q).
  { intros Hn tok. subst run. unfold outcome, final.
    rewrite (get_auth_token_exchange rt self clk st (token_usable_false _ _ Hn)).
    unfold exchange_result.
    destruct (server rt (sent st) _) as [msg|r] eqn:Es; [discriminate|].
    destruct (http_error_msg r _); [discriminate|].
    destruct (body_json r) as [data|] eqn:Eb; [|discriminate].
    destruct data as [| | | | | |fields]; try discriminate.
    cbn [py_getitem dict_get].
    destruct (assoc "access_token" fields) as [tok'|] eqn:Ea; [|discriminate].
    cbn [outcome fst ret].
    destruct (as_float _) as [x|] eqn:Ex; [|discriminate].
    destruct (overflows_float _); [discriminate|].
    cbn [fst snd]. intro H. inversion H. subst tok'.
    exists r, fields, x. cbn [token token_expiry]. tauto. }
  split; [|split; [exact Hsent|split; [exact Hsucc|]]].
  - split.
    + intros [_ Hf].
      destruct (PiwikAnalytics.token_usable st now) eqn:E;
        [now apply token_usable_iff|].
      exfalso. apply (app_one_neq (sent st) (PiwikAnalytics.token_request rt self)).
      rewrite <- Hsent; [now rewrite Hf|].
      intro Hc. apply token_usable_iff in Hc. congruence.
    + intro Hc. apply token_usable_iff in Hc. subst run.
      rewrite (get_auth_token_cached rt self clk st Hc). split; reflexivity.
  - intros Hn tok clk2 Hok Hc2 run2.
    destruct (Hsucc Hn tok Hok) as [r [fields [x [_ [_ [_ [_ [Htok _]]]]]]]].
    apply token_usable_iff in Hc2. unfold run2.
    rewrite (get_auth_token_cached rt self clk2 (final run) Hc2).
    split.
    + unfold outcome. cbn [fst]. now rewrite Htok.
    + unfold final at 1. cbn [fst snd]. exact (Hsent Hn).
Qed.

(** C10, as the code has it.  When the token exchange meets a transport
    error or a response with a status in 400..599, [_get_auth_token]
    raises its authentication failure and the cache is as before: the
    token and its expiry are unchanged. *)
Theorem failed_exchange_keeps_cache (rt : runtime) (self : PiwikAnalytics.t)
    (clk : clock) (st : store) :
  PiwikAnalytics.token_usable st (timestamp clk) = false ->
  ((exists msg,
      server rt (sent st) (PiwikAnalytics.token_request rt self)
      = TransportError msg)
   \/ (exists r,
         server rt (sent st) (PiwikAnalytics.token_request rt self) = Response r
         /\ (400 <= status_code r < 600)%Z)) ->
  let run := PiwikAnalytics._get_auth_token rt self clk st in
  (exists str_e,
     outcome run = Raise (Exception ("Authentication failed: " ++ str_e)))
  /\ token (final run) = token st
  /\ token_expiry (final run) = token_expiry st.
Proof.
  intros Hu Hs run. subst run. unfold outcome, final.
  rewrite (get_auth_token_exchange rt self clk st Hu).
  unfold exchange_result.
  destruct Hs as [[msg Hs]|[r [Hs Hr]]]; rewrite Hs.
  - split; [now exists msg|]. split; reflexivity.
  - assert (Herr : exists str_e,
               http_error_msg r (BASE_URL rt ++ "/auth/token") = Some str_e).
    { unfold http_error_msg.
      destruct (400 <=? status_code r)%Z eqn:E1; [|apply Z.leb_gt in E1; lia].
      destruct (status_code r <? 500)%Z eqn:E2; cbn [andb]; [eexists; reflexivity|].
      destruct (500 <=? status_code r)%Z eqn:E3;
        [|apply Z.leb_gt in E3; apply Z.ltb_ge in E2; lia].
      destruct (status_code r <? 600)%Z eqn:E4; cbn [andb]; [eexists; reflexivity|].
      apply Z.ltb_ge in E4. lia. }
    destruct Herr as [str_e Herr]. rewrite Herr.
    split; [now exists str_e|]. split; reflexivity.
Qed.

(** * The properties on concrete runs *)

(** C1 on a fresh client: the first call exchanges, the second, 1000
    seconds later, reuses the token. *)
Lemma get_auth_token_caching_witness :
  ~ cached_and_fresh PiwikAnalytics.init_store (timestamp (at_time 1000))
  /\ outcome (PiwikAnalytics._get_auth_token rt_fresh_token sample_self
                (at_time 1000) PiwikAnalytics.init_store) = Ok (JStr "abc")
  /\ cached_and_fresh
       (final (PiwikAnalytics._get_auth_token rt_fresh_token sample_self
                 (at_time 1000) PiwikAnalytics.init_store))
       (timestamp (at_time 2000))
  /\ outcome (PiwikAnalytics._get_auth_token rt_fresh_token sample_self
                (at_time 2000)
                (final (PiwikAnalytics._get_auth_token rt_fresh_token sample_self
                          (at_time 1000) PiwikAnalytics.init_store)))
     = Ok (JStr "abc")
  /\ sent (final (PiwikAnalytics._get_auth_token rt_fresh_token sample_self
                    (at_time 2000)
                    (final (PiwikAnalytics._get_auth_token rt_fresh_token
                              sample_self (at_time 1000)
                              PiwikAnalytics.init_store))))
     = (sent PiwikAnalytics.init_store
        ++ [PiwikAnalytics.token_request rt_fresh_token sample_self])%list.
Proof.
  assert (Hn : ~ cached_and_fresh PiwikAnalytics.init_store
                   (timestamp (at_time 1000))).
  { intros [Ht _]. discriminate Ht. }
  assert (Hok : outcome (PiwikAnalytics._get_auth_token rt_fresh_token sample_self
                           (at_time 1000) PiwikAnalytics.init_store)
                = Ok (JStr "abc")) by reflexivity.
  assert (Hc : cached_and_fresh
                 (final (PiwikAnalytics._get_auth_token rt_fresh_token sample_self
                           (at_time 1000) PiwikAnalytics.init_store))
                 (timestamp (at_time 2000))).
  { split; [reflexivity|]. exists (1000 + inject_Z 3600)%Q.
    split; [reflexivity|]. split.
    - intro H. discriminate H.
    - reflexivity. }
  split; [exact Hn|]. split; [exact Hok|]. split; [exact Hc|].
  exact (proj2 (proj2 (proj2
           (get_auth_token_caching rt_fresh_token sample_self (at_time 1000)
              PiwikAnalytics.init_store)))
           Hn (JStr "abc") (at_time 2000) Hok Hc).
Defined.

(** C1 as stated fails on an empty token: the platform hands out the
    empty string, valid for 3600 seconds; one second after the first
    call the cache holds that token and its expiry is still ahead, and
    yet the second call exchanges again. *)
Lemma empty_token_is_exchanged_again :
  outcome (PiwikAnalytics._get_auth_token rt_empty_token sample_self
             (at_time 1000) PiwikAnalytics.init_store) = Ok (JStr "")
  /\ token (final (PiwikAnalytics._get_auth_token rt_empty_token sample_self
                     (at_time 1000) PiwikAnalytics.init_store)) = JStr ""
  /\ token_expiry (final (PiwikAnalytics._get_auth_token rt_empty_token sample_self
                            (at_time 1000) PiwikAnalytics.init_store))
     = Some (1000 + inject_Z 3600)%Q
  /\ (timestamp (at_time 1001) < 1000 + inject_Z 3600)%Q
  /\ sent (final (PiwikAnalytics._get_auth_token rt_empty_token sample_self
                    (at_time 1001)
                    (final (PiwikAnalytics._get_auth_token rt_empty_token
                              sample_self (at_time 1000)
                              PiwikAnalytics.init_store))))
     = [ PiwikAnalytics.token_request rt_empty_token sample_self;
         PiwikAnalytics.token_request rt_empty_token sample_self ].
Proof.
  repeat split.
Qed.

(** C10 with the token endpoint answering 503. *)
Lemma failed_exchange_keeps_cache_witness :
  PiwikAnalytics.token_usable warm_store (timestamp (at_time 6000)) = false
  /\ (exists r,
        server rt_auth_down (sent warm_store)
          (PiwikAnalytics.token_request rt_auth_down sample_self) = Response r
        /\ (400 <= status_code r < 600)%Z)
  /\ (exists str_e,
        outcome (PiwikAnalytics._get_auth_token rt_auth_down sample_self
                   (at_time 6000) warm_store)
        = Raise (Exception ("Authentication failed: " ++ str_e)))
  /\ token (final (PiwikAnalytics._get_auth_token rt_auth_down sample_self
                     (at_time 6000) warm_store)) = token warm_store
  /\ token_expiry (final (PiwikAnalytics._get_auth_token rt_auth_down sample_self
                            (at_time 6000) warm_store))
     = token_expiry warm_store.
Proof.
  assert (Hu : PiwikAnalytics.token_usable warm_store (timestamp (at_time 6000))
               = false) by reflexivity.
  assert (Hs : exists r,
             server rt_auth_down (sent warm_store)
               (PiwikAnalytics.token_request rt_auth_down sample_self) = Response r
             /\ (400 <= status_code r < 600)%Z).
  { eexists. split; [reflexivity|]. simpl. lia. }
  split; [exact Hu|]. split; [exact Hs|].
  exact (failed_exchange_keeps_cache rt_auth_down sample_self (at_time 6000)
           warm_store Hu (or_intror Hs)).
Defined.

(** C10 as stated fails on a 304 answer of the token endpoint, a status
    outside 200..299 that [raise_for_status] lets through: with a token
    in the body the call returns it and overwrites the cache; with a
    token and an expires_in that is not a number the call raises after
    the token has been overwritten. *)
Lemma exchange_304_overwrites_cache :
  (exists r,
     server rt_auth_304 (sent warm_store)
       (PiwikAnalytics.token_request rt_auth_304 sample_self) = Response r
     /\ status_code r = 304%Z /\ ~ (200 <= status_code r < 300)%Z)
  /\ PiwikAnalytics.token_usable warm_store (timestamp (at_time 6000)) = false
  /\ outcome (PiwikAnalytics._get_auth_token rt_auth_304 sample_self
                (at_time 6000) warm_store) = Ok (JStr "t")
  /\ token warm_store = JStr "tok"
  /\ token (final (PiwikAnalytics._get_auth_token rt_auth_304 sample_self
                     (at_time 6000) warm_store)) = JStr "t"
  /\ outcome (PiwikAnalytics._get_auth_token rt_auth_304_bad_expiry sample_self
                (at_time 6000) warm_store)
     = Raise (TypeError "unsupported operand type(s) for +: 'float' and 'str'")
  /\ token (final (PiwikAnalytics._get_auth_token rt_auth_304_bad_expiry
                     sample_self (at_time 6000) warm_store)) = JStr "t".
Proof.
  split.
  - eexists. split; [reflexivity|]. split; [reflexivity|]. simpl. lia.
  - repeat split.
Qed.

(** C5 with the API answering 404 and a JSON body. *)
Lemma api_call_error_status_witness :
  supported "GET"
  /\ PiwikAnalytics._get_auth_token rt_api_404 sample_self (at_time 1000) warm_store
     = (Ok (JStr "tok"), warm_store, [(DEBUG, "Using existing auth token")])
  /\ (exists r,
        server rt_api_404 (sent warm_store) (warm_get rt_api_404 "/api/apps/v2/42")
        = Response r
        /\ (400 <= status_code r < 600)%Z
        /\ exists str_e,
             outcome (PiwikAnalytics._make_api_call rt_api_404 sample_self
                        "/api/apps/v2/42" "GET" None None (at_time 1000) warm_store)
             = Raise (Exception
                        ((("API call failed: " ++ str_e) ++ nl
                          ++ "Error details: "
                          ++ json_dumps rt_api_404 (JObj [("error", JStr "no such app")]))
                         ++ nl ++ "Status code: " ++ "404"))).
Proof.
  assert (Hm : supported "GET") by (left; reflexivity).
  split; [exact Hm|]. split; [reflexivity|].
  eexists. split; [reflexivity|].
  assert (Hr : (400 <= 404 < 600)%Z) by lia.
  split; [exact Hr|].
  destruct (api_call_error_status rt_api_404 sample_self "/api/apps/v2/42" "GET"
              None None (at_time 1000) warm_store (JStr "tok") warm_store
              [(DEBUG, "Using existing auth token")] _ Hm eq_refl eq_refl Hr)
    as [str_e [_ [Hout _]]].
  exists str_e. exact Hout.
Defined.

(** C5 as stated fails on a 304 answer: the status is outside 200..299
    and the call returns the (empty) response text. *)
Lemma api_call_returns_on_304 :
  (exists r,
     server rt_api_304 (sent warm_store) (warm_get rt_api_304 "/api/apps/v2")
     = Response r
     /\ status_code r = 304%Z /\ ~ (200 <= status_code r < 300)%Z)
  /\ sent (final (PiwikAnalytics._make_api_call rt_api_304 sample_self
                    "/api/apps/v2" "GET" None None (at_time 1000) warm_store))
     = [warm_get rt_api_304 "/api/apps/v2"]
  /\ outcome (PiwikAnalytics._make_api_call rt_api_304 sample_self
                "/api/apps/v2" "GET" None None (at_time 1000) warm_store)
     = Ok (JStr "").
Proof.
  split.
  - eexists. split; [reflexivity|]. split; [reflexivity|]. simpl. lia.
  - split; reflexivity.
Qed.

(** C6 with the API answering 200 and the text "pong". *)
Lemma api_call_success_body_witness :
  supported "GET"
  /\ PiwikAnalytics._get_auth_token rt_api_text sample_self (at_time 1000) warm_store
     = (Ok (JStr "tok"), warm_store, [(DEBUG, "Using existing auth token")])
  /\ server rt_api_text (sent warm_store) (warm_get rt_api_text "/api/apps/v2")
     = text_answer 200 "OK" "pong"
  /\ (200 <= 200 < 300)%Z
  /\ outcome (PiwikAnalytics._make_api_call rt_api_text sample_self
                "/api/apps/v2" "GET" None None (at_time 1000) warm_store)
     = Ok (JStr "pong").
Proof.
  assert (Hm : supported "GET") by (left; reflexivity).
  assert (Hr : (200 <= 200 < 300)%Z) by lia.
  split; [exact Hm|]. split; [reflexivity|]. split; [reflexivity|].
  split; [exact Hr|].
  exact (proj1 (api_call_success_body rt_api_text sample_self "/api/apps/v2" "GET"
                  None None (at_time 1000) warm_store (JStr "tok") warm_store
                  [(DEBUG, "Using existing auth token")] _ Hm eq_refl eq_refl Hr)
           _ eq_refl).
Defined.

(** C9 with the domain set to acme.piwik.pro: with a usable token the
    call sends its one request to https://acme.piwik.pro/api/apps/v2; on
    a cold start the token request goes to
    https://acme.piwik.pro/auth/token and the call follows. *)
Lemma api_call_url_witness :
  piwik rt_acme = Some acme_self
  /\ piwik rt_acme_cold = Some acme_self
  /\ supported "GET"
  /\ req_url (PiwikAnalytics.token_request rt_acme acme_self)
     = "https://acme.piwik.pro/auth/token"
  /\ (exists req,
        sent (final (PiwikAnalytics._make_api_call rt_acme acme_self "/api/apps/v2"
                       "GET" None None (at_time 1000) warm_store))
        = (sent warm_store ++ [req])%list
        /\ req_method req = "GET"
        /\ req_url req = "https://acme.piwik.pro/api/apps/v2")
  /\ (exists req,
        sent (final (PiwikAnalytics._make_api_call rt_acme_cold acme_self
                       "/api/apps/v2" "GET" None None (at_time 1000)
                       PiwikAnalytics.init_store))
        = [PiwikAnalytics.token_request rt_acme_cold acme_self; req]
        /\ req_method req = "GET"
        /\ req_url req = "https://acme.piwik.pro/api/apps/v2").
Proof.
  assert (Hp : piwik rt_acme = Some acme_self) by reflexivity.
  assert (Hp' : piwik rt_acme_cold = Some acme_self) by reflexivity.
  assert (Hm : supported "GET") by (left; reflexivity).
  split; [exact Hp|]. split; [exact Hp'|]. split; [exact Hm|].
  split; [|split].
  - exact (proj1 (proj2
             (api_call_url rt_acme acme_self "/api/apps/v2" "GET" None None
                (at_time 1000) warm_store Hp Hm))).
  - exact (proj1 (proj2 (proj2
             (api_call_url rt_acme acme_self "/api/apps/v2" "GET" None None
                (at_time 1000) warm_store Hp Hm)))).
  - exact (proj1 (proj2 (proj2
             (api_call_url rt_acme_cold acme_self "/api/apps/v2" "GET" None None
                (at_time 1000) PiwikAnalytics.init_store Hp' Hm)))).
Defined.

(** C4 with no credentials in the environment. *)
Lemma tools_fail_without_client_witness :
  missing_credentials bare_runtime
  /\ outcome (list_websites bare_runtime (at_time 1000) PiwikAnalytics.init_store)
     = Raise ClientNotInitializedError
  /\ outcome (create_annotation bare_runtime "1" "release" None None (at_time 1000)
                PiwikAnalytics.init_store)
     = Raise ClientNotInitializedError
  /\ final (create_annotation bare_runtime "1" "release" None None (at_time 1000)
              PiwikAnalytics.init_store)
     = PiwikAnalytics.init_store.
Proof.
  assert (Hm : missing_credentials bare_runtime) by (left; reflexivity).
  split; [exact Hm|].
  destruct (tools_fail_without_client bare_runtime (at_time 1000)
              PiwikAnalytics.init_store Hm)
    as [_ [[Hl _] [_ [_ [Hc _]]]]].
  split; [exact Hl|]. exact (Hc "1" "release" None None).
Defined.

(** C3 at the boundary: 150 letters with the visibility left out are
    accepted, 151 letters are refused, and so is the visibility
    "secret"; 60 euro signs, 180 bytes of UTF-8, are 60 characters and
    are accepted. *)
Lemma create_annotation_validation_witness :
  piwik rt_api_text = Some sample_self
  /\ py_len (letters 150) = 150%nat
  /\ (create_annotation rt_api_text "1" (letters 150) None None (at_time 1000)
        warm_store
      = create_annotation_delegated rt_api_text sample_self "1" (letters 150) None
          "private" (at_time 1000) warm_store
      /\ sent (final (create_annotation rt_api_text "1" (letters 150) None None
                        (at_time 1000) warm_store))
         <> sent warm_store)
  /\ create_annotation rt_api_text "1" (letters 151) None None (at_time 1000)
       warm_store
     = (Raise (Exception "content must be 150 characters or less"), warm_store, [])
  /\ create_annotation rt_api_text "1" "release" None (Some "secret") (at_time 1000)
       warm_store
     = (Raise (Exception "visibility must be 'private' or 'public'"), warm_store, [])
  /\ String.length (euros 60) = 180%nat
  /\ py_len (euros 60) = 60%nat
  /\ (create_annotation rt_api_text "1" (euros 60) None None (at_time 1000)
        warm_store
      = create_annotation_delegated rt_api_text sample_self "1" (euros 60) None
          "private" (at_time 1000) warm_store
      /\ sent (final (create_annotation rt_api_text "1" (euros 60) None None
                        (at_time 1000) warm_store))
         <> sent warm_store).
Proof.
  assert (Hp : piwik rt_api_text = Some sample_self) by reflexivity.
  assert (Hw : "1" <> "") by discriminate.
  split; [exact Hp|]. split; [reflexivity|].
  split; [|split; [|split; [|split; [reflexivity|split; [reflexivity|]]]]].
  - refine (proj1 (proj2 (proj2 (proj2 (proj2
             (create_annotation_validation rt_api_text sample_self "1"
                (letters 150) None None (at_time 1000) warm_store Hp)))))
             Hw _ _ (or_introl eq_refl)).
    + discriminate.
    + apply Nat.leb_le. reflexivity.
  - refine (proj1 (proj2 (proj2
             (create_annotation_validation rt_api_text sample_self "1"
                (letters 151) None None (at_time 1000) warm_store Hp)))
             Hw _).
    apply Nat.ltb_lt. reflexivity.
  - refine (proj1 (proj2 (proj2 (proj2
             (create_annotation_validation rt_api_text sample_self "1"
                "release" None (Some "secret") (at_time 1000) warm_store Hp))))
             Hw _ _ _ _).
    + discriminate.
    + apply Nat.leb_le. reflexivity.
    + discriminate.
    + discriminate.
  - refine (proj1 (proj2 (proj2 (proj2 (proj2
             (create_annotation_validation rt_api_text sample_self "1"
                (euros 60) None None (at_time 1000) warm_store Hp)))))
             Hw _ _ (or_introl eq_refl)).
    + discriminate.
    + apply Nat.leb_le. reflexivity.
Defined.

(** The annotation posted when the visibility is left out carries
    "private". *)
Example create_annotation_default_visibility :
  sent (final (create_annotation rt_api_text "1" "release" (Some "2024-04-30") None
                 (at_time 1000) warm_store))
  = [ {| req_method := "POST";
         req_url := "https://analytics.piwik.pro/api/analytics/v1/manage/annotation/user/";
         req_headers := [ ("Authorization", "Bearer tok");
                          ("Content-Type", "application/json") ];
         req_auth := None;
         req_data := [];
         req_json :=
           Some (JObj [ ("data",
                         JObj [ ("type", JStr "UserAnnotation");
                                ("attributes",
                                 JObj [ ("content", JStr "release");
                                        ("website_id", JStr "1");
                                        ("date", JStr "2024-04-30");
                                        ("visibility", JStr "private") ]) ]) ]);
         req_params := None |} ].
Proof. reflexivity. Qed.

(** [get_metrics] on [["visits"; "bogus_column"]] posts the entry of
    "visits" alone and logs the warning. *)
Example get_metrics_bogus_column :
  map req_json
    (sent (final (PiwikAnalytics.get_metrics rt_api_text sample_self "1"
                    "2024-04-01" "2024-04-30" ["visits"; "bogus_column"]
                    (at_time 1000) warm_store)))
  = [ Some (metrics_payload "1" "2024-04-01" "2024-04-30"
              [JObj [("column_id", JStr "sessions")]]) ]
  /\ In (WARNING, "Unknown column: bogus_column")
        (logged (PiwikAnalytics.get_metrics rt_api_text sample_self "1"
                   "2024-04-01" "2024-04-30" ["visits"; "bogus_column"]
                   (at_time 1000) warm_store)).
Proof. split; [reflexivity|]. simpl. tauto. Qed.

(** * Further properties *)

(** ** More on the token cache *)

Lemma exact_does_not_overflow (v : json) :
  converts_exactly v = true -> overflows_float v = false.
Proof.
  destruct v; try reflexivity.
  cbn [converts_exactly overflows_float]. intro H.
  apply Z.leb_le in H. apply Z.leb_gt.
  assert (Hlim : (2 ^ 53 < float_int_limit)%Z) by (vm_compute; reflexivity).
  lia.
Qed.


Lemma http_error_msg_none (r : response) (url : string) :
  ~ (400 <= status_code r < 600)%Z -> http_error_msg r url = None.
Proof.
  intro H. unfold http_error_msg.
  destruct (400 <=? status_code r)%Z eqn:E1;
    destruct (status_code r <? 500)%Z eqn:E2;
    destruct (500 <=? status_code r)%Z eqn:E3;
    destruct (status_code r <? 600)%Z eqn:E4; cbn [andb]; try reflexivity;
    exfalso; apply H;
    repeat match goal with
           | E : (_ <=? _)%Z = true |- _ => apply Z.leb_le in E
           | E : (_ <=? _)%Z = false |- _ => apply Z.leb_gt in E
           | E : (_ <? _)%Z = true |- _ => apply Z.ltb_lt in E
           | E : (_ <? _)%Z = false |- _ => apply Z.ltb_ge in E
           end; lia.
Qed.

(** What [_get_auth_token] leaves behind when it raises: exactly one
    request was sent and the expiry is the old one; the token is the old
    one too unless the exception is a [TypeError] or an [OverflowError]
    (the two that the addition of line 65 raises, after the token has
    been assigned); and a plain [Exception] is the authentication
    failure. *)
Theorem get_auth_token_failure (rt : runtime) (self : PiwikAnalytics.t)
    (clk : clock) (st : store) (e : exn) :
  outcome (PiwikAnalytics._get_auth_token rt self clk st) = Raise e ->
  sent (final (PiwikAnalytics._get_auth_token rt self clk st))
  = (sent st ++ [PiwikAnalytics.token_request rt self])%list
  /\ token_expiry (final (PiwikAnalytics._get_auth_token rt self clk st))
     = token_expiry st
  /\ ((forall msg, e <> TypeError msg) -> (forall msg, e <> OverflowError msg) ->
      token (final (PiwikAnalytics._get_auth_token rt self clk st)) = token st)
  /\ (forall msg, e = Exception msg ->
      exists cause, msg = "Authentication failed: " ++ cause).
Proof.
  destruct (PiwikAnalytics.token_usable st (timestamp clk)) eqn:Eu.
  - rewrite (get_auth_token_cached rt self clk st Eu). discriminate.
  - unfold outcome, final.
    rewrite (get_auth_token_exchange rt self clk st Eu).
    pose proof (exchange_result_sent rt self (timestamp clk) st) as Hsent.
    revert Hsent. unfold exchange_result.
    destruct (server rt (sent st) _) as [msg|r].
    { cbn [fst snd]. intros Hsent H. inversion H. subst e.
      split; [exact Hsent|]. split; [reflexivity|]. split; [reflexivity|].
      intros m Hm. inversion Hm. now exists msg. }
    destruct (http_error_msg r _) as [msg|].
    { cbn [fst snd]. intros Hsent H. inversion H. subst e.
      split; [exact Hsent|]. split; [reflexivity|]. split; [reflexivity|].
      intros m Hm. inversion Hm. now exists msg. }
    destruct (body_json r) as [data|msg].
    2:{ cbn [fst snd]. intros Hsent H. inversion H. subst e.
        split; [exact Hsent|]. split; [reflexivity|]. split; [reflexivity|].
        intros m Hm. inversion Hm. now exists msg. }
    destruct data as [| b | n | q | s | l | fields];
      try (cbn [py_getitem outcome raise fst snd type_name];
           intros Hsent H; inversion H; subst e;
           split; [exact Hsent|]; split; [reflexivity|]; split; [reflexivity|];
           intros m Hm; discriminate Hm).
    cbn [py_getitem].
    destruct (assoc "access_token" fields) as [tok|].
    2:{ cbn [outcome raise fst snd]. intros Hsent H. inversion H. subst e.
        split; [exact Hsent|]. split; [reflexivity|]. split; [reflexivity|].
        intros m Hm. discriminate Hm. }
    cbn [outcome ret fst].
    destruct (as_float _) as [x|]; cbn [fst snd].
    + destruct (overflows_float _); cbn [fst snd]; [|discriminate].
      intros Hsent H. inversion H. subst e.
      split; [exact Hsent|]. split; [reflexivity|]. split.
      * intros _ Hne. exfalso. eapply Hne. reflexivity.
      * intros m Hm. discriminate Hm.
    + intros Hsent H. inversion H. subst e.
      split; [exact Hsent|]. split; [reflexivity|]. split.
      * intros Hne _. exfalso. eapply Hne. reflexivity.
      * intros m Hm. discriminate Hm.
Qed.

(** A token answer whose expires_in is not a number ([null], a string, a
    list, an object) makes [_get_auth_token] raise a [TypeError] after
    the new token has been stored: the cache then holds the new token
    with the old expiry. *)
Theorem bad_expires_in_overwrites_token (rt : runtime) (self : PiwikAnalytics.t)
    (clk : clock) (st : store) (r : response) (fields : list (string * json))
    (tok v : json) :
  PiwikAnalytics.token_usable st (timestamp clk) = false ->
  server rt (sent st) (PiwikAnalytics.token_request rt self) = Response r ->
  ~ (400 <= status_code r < 600)%Z ->
  body_json r = Decoded (JObj fields) ->
  assoc "access_token" fields = Some tok ->
  assoc "expires_in" fields = Some v ->
  as_float v = None ->
  outcome (PiwikAnalytics._get_auth_token rt self clk st)
  = Raise (TypeError ("unsupported operand type(s) for +: 'float' and '"
                      ++ type_name v ++ "'"))
  /\ token (final (PiwikAnalytics._get_auth_token rt self clk st)) = tok
  /\ token_expiry (final (PiwikAnalytics._get_auth_token rt self clk st))
     = token_expiry st.
Proof.
  intros Hu Hs Hr Hb Ha Hv Hf. unfold outcome, final.
  rewrite (get_auth_token_exchange rt self clk st Hu).
  unfold exchange_result.
  rewrite Hs, (http_error_msg_none r _ Hr), Hb.
  cbn [py_getitem dict_get]. rewrite Ha, Hv, Hf.
  cbn [outcome ret fst snd]. repeat split.
Qed.

(** A call made at or after the expiry of the token an earlier exchange
    cached, the lifetime being a number that converts to a float exactly
    (in particular any later call when expires_in is zero or negative),
    exchanges again: the two calls send two token requests. *)
Theorem expired_token_is_exchanged_again (rt : runtime) (self : PiwikAnalytics.t)
    (clk clk2 : clock) (st : store) (r : response)
    (fields : list (string * json)) (tok : json) (x : Q) :
  PiwikAnalytics.token_usable st (timestamp clk) = false ->
  server rt (sent st) (PiwikAnalytics.token_request rt self) = Response r ->
  ~ (400 <= status_code r < 600)%Z ->
  body_json r = Decoded (JObj fields) ->
  assoc "access_token" fields = Some tok ->
  as_float (dict_get (JObj fields) "expires_in" (JInt 3600)) = Some x ->
  converts_exactly (dict_get (JObj fields) "expires_in" (JInt 3600)) = true ->
  (timestamp clk + x <= timestamp clk2)%Q ->
  outcome (PiwikAnalytics._get_auth_token rt self clk st) = Ok tok
  /\ sent (final (PiwikAnalytics._get_auth_token rt self clk2
                    (final (PiwikAnalytics._get_auth_token rt self clk st))))
     = (sent st ++ [ PiwikAnalytics.token_request rt self;
                     PiwikAnalytics.token_request rt self ])%list.
Proof.
  intros Hu Hs Hr Hb Ha Hx Hex Hle.
  assert (Hrun : fst (PiwikAnalytics._get_auth_token rt self clk st)
                 = (Ok tok,
                    {| token := tok; token_expiry := Some (timestamp clk + x)%Q;
                       sent := (sent st ++ [PiwikAnalytics.token_request rt self])%list |})).
  { rewrite (get_auth_token_exchange rt self clk st Hu).
    unfold exchange_result.
    rewrite Hs, (http_error_msg_none r _ Hr), Hb.
    cbn [py_getitem]. rewrite Ha. cbn [outcome ret fst].
    rewrite Hx, (exact_does_not_overflow _ Hex).
    reflexivity. }
  unfold outcome, final. rewrite Hrun. cbn [fst snd].
  split; [reflexivity|].
  set (st1 := {| token := tok; token_expiry := Some (timestamp clk + x)%Q;
                 sent := (sent st ++ [PiwikAnalytics.token_request rt self])%list |}).
  assert (Hu2 : PiwikAnalytics.token_usable st1 (timestamp clk2) = false).
  { unfold PiwikAnalytics.token_usable, st1. cbn [token token_expiry].
    assert (Hq : Qltb (timestamp clk2) (timestamp clk + x) = false).
    { destruct (Qltb (timestamp clk2) (timestamp clk + x)) eqn:E; [|reflexivity].
      apply Qltb_lt in E. exfalso. apply (Qlt_not_le _ _ E Hle). }
    rewrite Hq. now rewrite !andb_false_r. }
  rewrite (get_auth_token_exchange rt self clk2 st1 Hu2).
  rewrite exchange_result_sent. unfold st1. cbn [sent].
  now rewrite <- app_assoc.
Qed.

(** ** More on API calls *)

Lemma api_request_unsupported (method url : string)
    (headers : list (string * string)) (data params : option json) :
  ~ supported method ->
  PiwikAnalytics.api_request method url headers data params = None.
Proof.
  intro H. unfold PiwikAnalytics.api_request, supported in *.
  destruct (String.eqb method "GET") eqn:E1;
    [apply String.eqb_eq in E1; tauto|].
  destruct (String.eqb method "POST") eqn:E2;
    [apply String.eqb_eq in E2; tauto|].
  destruct (String.eqb method "PUT") eqn:E3;
    [apply String.eqb_eq in E3; tauto|].
  destruct (String.eqb method "DELETE") eqn:E4;
    [apply String.eqb_eq in E4; tauto|].
  reflexivity.
Qed.

(** The requests one API call adds to the trace: the token request when
    the cache is not usable, then the request of the call when the token
    is there and the method is supported. *)
Lemma make_api_call_trace (rt : runtime) (self : PiwikAnalytics.t)
    (endpoint method : string) (data params : option json) (clk : clock)
    (st : store) :
  exists pre post,
    sent (final (PiwikAnalytics._make_api_call rt self endpoint method data
                   params clk st))
    = (sent st ++ pre ++ post)%list
    /\ ((PiwikAnalytics.token_usable st (timestamp clk) = true /\ pre = [])
        \/ (PiwikAnalytics.token_usable st (timestamp clk) = false
            /\ pre = [PiwikAnalytics.token_request rt self]))
    /\ (post = []
        \/ exists tok,
             post = [issued_request method (BASE_URL rt ++ endpoint)
                       (PiwikAnalytics.api_headers rt tok) data params]).
Proof.
  pose proof (get_auth_token_sent rt self clk st) as Hs. cbv zeta in Hs.
  unfold final in *. rewrite make_api_call_run.
  destruct (PiwikAnalytics._get_auth_token rt self clk st)
    as [[[tok|e] st1] lg]; cbn [fst snd] in Hs.
  - assert (Hpost : exists post,
              sent (snd match PiwikAnalytics.api_request method
                                (BASE_URL rt ++ endpoint)
                                (PiwikAnalytics.api_headers rt tok) data params with
                        | Some req => call_result rt (BASE_URL rt ++ endpoint) req st1
                        | None =>
                            (Raise (ValueError ("Unsupported HTTP method: " ++ method)),
                             st1)
                        end)
              = (sent st1 ++ post)%list
              /\ (post = []
                  \/ exists tok,
                       post = [issued_request method (BASE_URL rt ++ endpoint)
                                 (PiwikAnalytics.api_headers rt tok) data params])).
    { destruct (PiwikAnalytics.api_request _ _ _ _ _) as [req|] eqn:Er.
      - exists [req]. split; [apply call_result_sent|]. right. exists tok.
        f_equal. revert Er. unfold PiwikAnalytics.api_request, issued_request.
        destruct (String.eqb method "GET") eqn:E1.
        { apply String.eqb_eq in E1. subst method. intro H. now inversion H. }
        destruct (String.eqb method "POST") eqn:E2.
        { apply String.eqb_eq in E2. subst method. intro H. now inversion H. }
        destruct (String.eqb method "PUT") eqn:E3.
        { apply String.eqb_eq in E3. subst method. intro H. now inversion H. }
        destruct (String.eqb method "DELETE") eqn:E4.
        { apply String.eqb_eq in E4. subst method. intro H. now inversion H. }
        discriminate.
      - exists []. split; [now rewrite app_nil_r|now left]. }
    destruct Hpost as [post [Hp Hshape]].
    destruct Hs as [[Hu Hs]|[Hu Hs]].
    + exists [], post. rewrite Hp, Hs. split; [reflexivity|].
      split; [left; now split|exact Hshape].
    + exists [PiwikAnalytics.token_request rt self], post.
      rewrite Hp, Hs, <- app_assoc. split; [reflexivity|].
      split; [right; now split|exact Hshape].
  - cbn [snd]. destruct Hs as [[Hu Hs]|[Hu Hs]].
    + exists [], []. rewrite Hs. split; [now rewrite app_nil_r|].
      split; [left; now split|now left].
    + exists [PiwikAnalytics.token_request rt self], [].
      rewrite Hs. split; [now rewrite app_nil_r|].
      split; [right; now split|now left].
Qed.

(** An API call never retries: whatever the method, the arguments and
    the answers of the platform, it sends at most two requests, and at
    most one when the cached token is usable. *)
Theorem make_api_call_no_retry (rt : runtime) (self : PiwikAnalytics.t)
    (endpoint method : string) (data params : option json) (clk : clock)
    (st : store) :
  exists new,
    sent (final (PiwikAnalytics._make_api_call rt self endpoint method data
                   params clk st))
    = (sent st ++ new)%list
    /\ (length new <= 2)%nat
    /\ (PiwikAnalytics.token_usable st (timestamp clk) = true ->
        (length new <= 1)%nat).
Proof.
  destruct (make_api_call_trace rt self endpoint method data params clk st)
    as [pre [post [Hs [Hpre Hpost]]]].
  exists (pre ++ post)%list. split; [exact Hs|].
  rewrite length_app.
  assert (Hl : (length post <= 1)%nat).
  { destruct Hpost as [->|[tok ->]]; simpl; lia. }
  destruct Hpre as [[Hu ->]|[Hu ->]]; simpl; split; try lia.
  intro H. congruence.
Qed.

(** The client secret goes to the token endpoint only: among the
    requests of an API call, every one that carries HTTP Basic
    credentials is the token request, and every other one carries the
    bearer header and no credentials. *)
Theorem credentials_only_to_token_endpoint (rt : runtime)
    (self : PiwikAnalytics.t) (endpoint method : string)
    (data params : option json) (clk : clock) (st : store) :
  exists new,
    sent (final (PiwikAnalytics._make_api_call rt self endpoint method data
                   params clk st))
    = (sent st ++ new)%list
    /\ Forall (fun req =>
                 (req = PiwikAnalytics.token_request rt self
                  /\ req_url req = BASE_URL rt ++ "/auth/token"
                  /\ req_auth req
                     = Some (PiwikAnalytics.client_id self,
                             PiwikAnalytics.client_secret self))
                 \/ (req_auth req = None
                     /\ req_url req = BASE_URL rt ++ endpoint
                     /\ exists tok,
                          req_headers req
                          = [ ("Authorization", "Bearer " ++ py_str rt tok);
                              ("Content-Type", "application/json") ]))
              new.
Proof.
  destruct (make_api_call_trace rt self endpoint method data params clk st)
    as [pre [post [Hs [Hpre Hpost]]]].
  exists (pre ++ post)%list. split; [exact Hs|].
  apply Forall_app. split.
  - destruct Hpre as [[_ ->]|[_ ->]]; [constructor|].
    constructor; [|constructor]. left. repeat split.
  - destruct Hpost as [->|[tok ->]]; [constructor|].
    constructor; [|constructor]. right.
    split; [reflexivity|]. split; [reflexivity|]. now exists tok.
Qed.

(** An unsupported method is found out after the token step: the token
    is fetched (or taken from the cache) first, then a [ValueError] is
    raised as it is, and no request of the call is sent. *)
Theorem unsupported_method_raises (rt : runtime) (self : PiwikAnalytics.t)
    (endpoint method : string) (data params : option json) (clk : clock)
    (st : store) (tok : json) (st1 : store) (lg : list log_record) :
  ~ supported method ->
  PiwikAnalytics._get_auth_token rt self clk st = (Ok tok, st1, lg) ->
  outcome (PiwikAnalytics._make_api_call rt self endpoint method data params
             clk st)
  = Raise (ValueError ("Unsupported HTTP method: " ++ method))
  /\ final (PiwikAnalytics._make_api_call rt self endpoint method data params
              clk st) = st1.
Proof.
  intros Hm Ha. unfold outcome, final.
  rewrite make_api_call_run, Ha, (api_request_unsupported _ _ _ _ _ Hm).
  split; reflexivity.
Qed.

(** A transport failure of the call itself gives the [Exception] with
    the library's message and neither status code nor detail; the
    request counts as sent and the token cache stays as the token step
    left it. *)
Theorem api_call_transport_error (rt : runtime) (self : PiwikAnalytics.t)
    (endpoint method : string) (data params : option json) (clk : clock)
    (st : store) (tok : json) (st1 : store) (lg : list log_record)
    (msg : string) :
  supported method ->
  PiwikAnalytics._get_auth_token rt self clk st = (Ok tok, st1, lg) ->
  server rt (sent st1)
    (issued_request method (BASE_URL rt ++ endpoint)
       (PiwikAnalytics.api_headers rt tok) data params) = TransportError msg ->
  fst (PiwikAnalytics._make_api_call rt self endpoint method data params clk st)
  = (Raise (Exception ("API call failed: " ++ msg)),
     {| token := token st1; token_expiry := token_expiry st1;
        sent := (sent st1
                 ++ [issued_request method (BASE_URL rt ++ endpoint)
                       (PiwikAnalytics.api_headers rt tok) data params])%list |}).
Proof.
  intros Hm Ha Hs.
  rewrite (make_api_call_with_token rt self endpoint method data params clk st
             tok st1 lg Hm Ha).
  unfold call_result. now rewrite Hs.
Qed.

Lemma classic_supported (method : string) : supported method \/ ~ supported method.
Proof.
  unfold supported.
  destruct (String.eqb method "GET") eqn:E1;
    [apply String.eqb_eq in E1; tauto|apply String.eqb_neq in E1].
  destruct (String.eqb method "POST") eqn:E2;
    [apply String.eqb_eq in E2; tauto|apply String.eqb_neq in E2].
  destruct (String.eqb method "PUT") eqn:E3;
    [apply String.eqb_eq in E3; tauto|apply String.eqb_neq in E3].
  destruct (String.eqb method "DELETE") eqn:E4;
    [apply String.eqb_eq in E4; tauto|apply String.eqb_neq in E4].
  tauto.
Qed.

Lemma call_result_cache (rt : runtime) (url : string) (req : request) (st1 : store) :
  token (snd (call_result rt url req st1)) = token st1
  /\ token_expiry (snd (call_result rt url req st1)) = token_expiry st1.
Proof.
  unfold call_result.
  destruct (server rt (sent st1) req) as [msg|r]; [split; reflexivity|].
  destruct (http_error_msg r url); split; reflexivity.
Qed.

(** Whatever the platform answers to the call (a 401 included) and
    whatever the method, a usable cached token stays in the cache with
    its expiry: an API call never clears or refreshes it. *)
Theorem api_call_keeps_usable_token (rt : runtime) (self : PiwikAnalytics.t)
    (endpoint method : string) (data params : option json) (clk : clock)
    (st : store) :
  PiwikAnalytics.token_usable st (timestamp clk) = true ->
  token (final (PiwikAnalytics._make_api_call rt self endpoint method data
                  params clk st)) = token st
  /\ token_expiry (final (PiwikAnalytics._make_api_call rt self endpoint method
                            data params clk st)) = token_expiry st.
Proof.
  intro Hu. unfold final. rewrite make_api_call_run.
  rewrite (get_auth_token_cached rt self clk st Hu).
  destruct (PiwikAnalytics.api_request _ _ _ _ _) as [req|].
  - apply call_result_cache.
  - split; reflexivity.
Qed.

Lemma masked_headers_hide_token (rt : runtime) (tok : json) :
  PiwikAnalytics.masked_headers (PiwikAnalytics.api_headers rt tok)
  = JObj [ ("Authorization", JStr "Bearer ***");
           ("Content-Type", JStr "application/json") ].
Proof. reflexivity. Qed.

(** What an API call logs with a usable cached token is fixed by its
    arguments and by the answer of the platform, not by the token: two
    calls that differ only in the token of the cache, and are given the
    same answer, log the same records and have the same outcome; and the
    headers are logged with "Bearer ***" in the place of the token.  (An
    error answer is logged as it is, so the log shows whatever the
    platform puts into it.) *)
Theorem api_call_log_hides_token (rt : runtime) (self : PiwikAnalytics.t)
    (endpoint method : string) (data params : option json) (clk : clock)
    (st st' : store) (answer : http_outcome) :
  PiwikAnalytics.token_usable st (timestamp clk) = true ->
  PiwikAnalytics.token_usable st' (timestamp clk) = true ->
  server rt (sent st)
    (issued_request method (BASE_URL rt ++ endpoint)
       (PiwikAnalytics.api_headers rt (token st)) data params) = answer ->
  server rt (sent st')
    (issued_request method (BASE_URL rt ++ endpoint)
       (PiwikAnalytics.api_headers rt (token st')) data params) = answer ->
  logged (PiwikAnalytics._make_api_call rt self endpoint method data params clk st)
  = logged (PiwikAnalytics._make_api_call rt self endpoint method data params clk st')
  /\ outcome (PiwikAnalytics._make_api_call rt self endpoint method data params
                clk st)
     = outcome (PiwikAnalytics._make_api_call rt self endpoint method data params
                  clk st')
  /\ In (DEBUG,
         "Headers: "
         ++ json_dumps rt (JObj [ ("Authorization", JStr "Bearer ***");
                                  ("Content-Type", JStr "application/json") ]))
        (logged (PiwikAnalytics._make_api_call rt self endpoint method data params
                   clk st)).
Proof.
  intros Hu Hu' Hs Hs'.
  assert (Hin : In (DEBUG,
                    "Headers: "
                    ++ json_dumps rt (JObj [ ("Authorization", JStr "Bearer ***");
                                             ("Content-Type", JStr "application/json") ]))
                   (logged (PiwikAnalytics._make_api_call rt self endpoint method
                              data params clk st))).
  { unfold logged, PiwikAnalytics._make_api_call, bind, when, logger, ret.
    destruct (truthy_arg data), (truthy_arg params);
      cbv beta iota;
      rewrite (get_auth_token_cached rt self clk st Hu),
              !masked_headers_hide_token;
      destruct (try_except _ _ _ _) as [[r2 st2] l2];
      cbn [snd app In];
      repeat (first [left; reflexivity | right]). }
  split; [|split; [|exact Hin]];
  unfold logged, outcome, PiwikAnalytics._make_api_call, bind, when, logger, ret;
  (destruct (truthy_arg data), (truthy_arg params);
    cbv beta iota;
    rewrite (get_auth_token_cached rt self clk st Hu),
            (get_auth_token_cached rt self clk st' Hu'),
            !masked_headers_hide_token;
    (destruct (classic_supported method) as [Hm|Hm];
     [ rewrite !(api_request_supported _ _ _ _ _ Hm);
       unfold try_except, bind, http; rewrite Hs, Hs';
       (destruct answer as [msg|r]; [reflexivity|]);
       cbn; unfold raise_for_status;
       (destruct (http_error_msg r _) as [m|]; cbn);
       unfold response_json; destruct (body_json r); reflexivity
     | rewrite !(api_request_unsupported _ _ _ _ _ Hm); reflexivity ])).
Qed.

(** ** More on column resolution *)

(** Every requested name is either resolved or answered with a warning,
    never both and never neither; names of the table give no warning. *)
Theorem resolve_columns_partition (columns : list string) :
  (length (fst (PiwikAnalytics.resolve_columns columns))
   + length (snd (PiwikAnalytics.resolve_columns columns)))%nat
  = length columns
  /\ (Forall (fun c => in_table c = true) columns ->
      snd (PiwikAnalytics.resolve_columns columns) = []
      /\ length (fst (PiwikAnalytics.resolve_columns columns)) = length columns)
  /\ (Forall (fun c => in_table c = false) columns ->
      fst (PiwikAnalytics.resolve_columns columns) = []
      /\ snd (PiwikAnalytics.resolve_columns columns)
         = map (fun c => (WARNING, "Unknown column: " ++ c)) columns).
Proof.
  rewrite resolve_columns_spec. cbn [fst snd].
  unfold resolved_entries, unknown_warnings. rewrite !length_map.
  assert (Hlen : (length (filter in_table columns)
                  + length (filter (fun c => negb (in_table c)) columns))%nat
                 = length columns).
  { induction columns as [|c cs IH]; [reflexivity|].
    cbn [filter]. destruct (in_table c); cbn [negb length]; lia. }
  split; [exact Hlen|]. split.
  - intro Hall.
    assert (Hf : filter (fun c => negb (in_table c)) columns = []).
    { clear Hlen. induction Hall as [|c cs Hc _ IH]; [reflexivity|].
      cbn [filter]. rewrite Hc. exact IH. }
    rewrite Hf in *. split; [reflexivity|]. simpl in Hlen. lia.
  - intro Hall.
    assert (Hf : filter in_table columns = []
                 /\ filter (fun c => negb (in_table c)) columns = columns).
    { clear Hlen. induction Hall as [|c cs Hc _ [IH1 IH2]]; [split; reflexivity|].
      cbn [filter]. rewrite Hc. cbn [negb]. split; [exact IH1|now rewrite IH2]. }
    destruct Hf as [Hf1 Hf2]. rewrite Hf1, Hf2. split; reflexivity.
Qed.

(** ** More on the tool registry *)

Lemma delegated_run {A : Type} (m : M A) (f : A -> string) (st : store) :
  fst (try_except (x <- m ;; ret (f x)) is_Exception reraise st)
  = match fst (m st) with
    | (Ok a, st1) => (Ok (f a), st1)
    | (Raise e, st1) => (Raise (Exception (str_exn e)), st1)
    end.
Proof.
  unfold try_except, bind, ret, reraise, raise.
  destruct (m st) as [[[a|e] st1] lg]; reflexivity.
Qed.

Lemma list_websites_run (rt : runtime) (self : PiwikAnalytics.t) (clk : clock)
    (st : store) :
  piwik rt = Some self ->
  fst (list_websites rt clk st)
  = serialised rt (fst (PiwikAnalytics.get_websites rt self clk st)).
Proof.
  intro Hp. unfold list_websites. rewrite Hp.
  unfold try_except, bind, ret, raise, logger, serialised.
  destruct (PiwikAnalytics.get_websites rt self clk st) as [[[a|e] st1] lg];
    reflexivity.
Qed.


Lemma delegated_only_Exception {A : Type} (m : M A) (f : A -> string) (st : store) :
  only_Exception (try_except (x <- m ;; ret (f x)) is_Exception reraise st).
Proof.
  intros e. unfold outcome. rewrite delegated_run.
  destruct (fst (m st)) as [[a|e'] st1]; cbn [fst]; intro H; inversion H.
  now eexists.
Qed.

Lemma raise_only_Exception {A : Type} (msg : string) (st : store) :
  only_Exception (@raise A (Exception msg) st).
Proof.
  intros e H. inversion H. now exists msg.
Qed.

(** Whatever the environment, the arguments and the platform do, a tool
    that fails fails with a plain [Exception]: a [KeyError], [TypeError]
    or [ValueError] of the client never leaves a tool. *)
Theorem tools_raise_only_Exception (rt : runtime) (clk : clock) (st : store) :
  only_Exception (list_websites rt clk st)
  /\ (forall website_id,
        only_Exception (get_website_details rt website_id clk st))
  /\ (forall website_id date_from date_to columns,
        only_Exception (get_metrics rt website_id date_from date_to columns clk st))
  /\ (forall website_id content date visibility,
        only_Exception
          (create_annotation rt website_id content date visibility clk st))
  /\ (forall website_id,
        only_Exception (get_annotations rt website_id clk st)).
Proof.
  unfold get_website_details, get_metrics, create_annotation, get_annotations.
  split; [|split; [|split; [|split]]].
  - intros e. unfold outcome, list_websites.
    destruct (piwik rt) as [self|].
    + unfold try_except, bind, ret, raise, logger.
      destruct (PiwikAnalytics.get_websites rt self clk st) as [[[a|e'] st1] lg];
        cbn [fst is_Exception]; intro H; inversion H. now eexists.
    + unfold bind, logger, raise. cbn [fst]. intro H. inversion H. now eexists.
  - intros w. destruct (piwik rt); [|apply raise_only_Exception].
    destruct (String.eqb w ""); [apply raise_only_Exception|].
    apply delegated_only_Exception.
  - intros w df dt cols. destruct (piwik rt); [|apply raise_only_Exception].
    destruct (String.eqb w ""); [apply raise_only_Exception|].
    destruct (String.eqb df ""); [apply raise_only_Exception|].
    destruct (String.eqb dt ""); [apply raise_only_Exception|].
    destruct cols; [apply raise_only_Exception|].
    apply delegated_only_Exception.
  - intros w c date vis. cbv zeta.
    destruct (piwik rt); [|apply raise_only_Exception].
    destruct (String.eqb w ""); [apply raise_only_Exception|].
    destruct (String.eqb c ""); [apply raise_only_Exception|].
    destruct (150 <? py_len c)%nat; [apply raise_only_Exception|].
    destruct (negb _); [apply raise_only_Exception|].
    apply delegated_only_Exception.
  - intros w. destruct (piwik rt); [|apply raise_only_Exception].
    destruct (String.eqb w ""); [apply raise_only_Exception|].
    apply delegated_only_Exception.
Qed.

Lemma grown_neq {A : Type} (l new : list A) (x : A) : (l ++ x :: new)%list <> l.
Proof.
  intro H. apply (f_equal (@length A)) in H.
  rewrite length_app in H. simpl in H. lia.
Qed.

Lemma serialised_store (rt : runtime) (x : result json * store) :
  snd (serialised rt x) = snd x.
Proof. destruct x as [[j|e] st1]; reflexivity. Qed.

Lemma get_metrics_sends (rt : runtime) (self : PiwikAnalytics.t)
    (website_id date_from date_to : string) (columns : list string)
    (clk : clock) (st : store) :
  exists req new,
    sent (final (PiwikAnalytics.get_metrics rt self website_id date_from date_to
                   columns clk st))
    = (sent st ++ req :: new)%list.
Proof.
  rewrite get_metrics_run.
  destruct (make_api_call_sends rt self "/api/analytics/v1/query" "POST"
              (Some (metrics_payload website_id date_from date_to
                       (resolved_entries columns))) None clk st)
    as [req [new Hs]]; [right; left; reflexivity|].
  exists req, new.
  destruct (PiwikAnalytics._make_api_call _ _ _ _ _ _ _ _) as [[r st'] lg].
  exact Hs.
Qed.

(** The [get_metrics] tool refuses an empty website_id, date_from,
    date_to or column list, in that order and before anything is sent;
    nothing else is checked (a date is any non-empty string), so with
    the client built the tool reaches the network exactly when the four
    arguments are non-empty. *)
Theorem get_metrics_validation (rt : runtime) (self : PiwikAnalytics.t)
    (website_id date_from date_to : string) (columns : list string)
    (clk : clock) (st : store) :
  piwik rt = Some self ->
  (website_id = "" ->
   get_metrics rt website_id date_from date_to columns clk st
   = (Raise (Exception "website_id is required"), st, []))
  /\ (website_id <> "" -> date_from = "" ->
      get_metrics rt website_id date_from date_to columns clk st
      = (Raise (Exception "date_from is required"), st, []))
  /\ (website_id <> "" -> date_from <> "" -> date_to = "" ->
      get_metrics rt website_id date_from date_to columns clk st
      = (Raise (Exception "date_to is required"), st, []))
  /\ (website_id <> "" -> date_from <> "" -> date_to <> "" -> columns = [] ->
      get_metrics rt website_id date_from date_to columns clk st
      = (Raise (Exception "At least one column is required"), st, []))
  /\ (sent (final (get_metrics rt website_id date_from date_to columns clk st))
      = sent st
      <-> website_id = "" \/ date_from = "" \/ date_to = "" \/ columns = []).
Proof.
  intro Hp.
  assert (H1 : website_id = "" ->
               get_metrics rt website_id date_from date_to columns clk st
               = (Raise (Exception "website_id is required"), st, [])).
  { intros ->. unfold get_metrics. now rewrite Hp. }
  assert (H2 : website_id <> "" -> date_from = "" ->
               get_metrics rt website_id date_from date_to columns clk st
               = (Raise (Exception "date_from is required"), st, [])).
  { intros Hw ->. unfold get_metrics. rewrite Hp.
    apply String.eqb_neq in Hw. now rewrite Hw. }
  assert (H3 : website_id <> "" -> date_from <> "" -> date_to = "" ->
               get_metrics rt website_id date_from date_to columns clk st
               = (Raise (Exception "date_to is required"), st, [])).
  { intros Hw Hdf ->. unfold get_metrics. rewrite Hp.
    apply String.eqb_neq in Hw, Hdf. now rewrite Hw, Hdf. }
  assert (H4 : website_id <> "" -> date_from <> "" -> date_to <> "" ->
               columns = [] ->
               get_metrics rt website_id date_from date_to columns clk st
               = (Raise (Exception "At least one column is required"), st, [])).
  { intros Hw Hdf Hdt ->. unfold get_metrics. rewrite Hp.
    apply String.eqb_neq in Hw, Hdf, Hdt. now rewrite Hw, Hdf, Hdt. }
  split; [exact H1|]. split; [exact H2|]. split; [exact H3|]. split; [exact H4|].
  destruct (String.eqb website_id "") eqn:Ew.
  { apply String.eqb_eq in Ew. rewrite (H1 Ew). split; [tauto|reflexivity]. }
  apply String.eqb_neq in Ew.
  destruct (String.eqb date_from "") eqn:Edf.
  { apply String.eqb_eq in Edf. rewrite (H2 Ew Edf). split; [tauto|reflexivity]. }
  apply String.eqb_neq in Edf.
  destruct (String.eqb date_to "") eqn:Edt.
  { apply String.eqb_eq in Edt. rewrite (H3 Ew Edf Edt).
    split; [tauto|reflexivity]. }
  apply String.eqb_neq in Edt.
  destruct columns as [|c cs].
  { rewrite (H4 Ew Edf Edt eq_refl). split; [tauto|reflexivity]. }
  split.
  - intro Hs. exfalso. revert Hs.
    unfold get_metrics. rewrite Hp.
    apply String.eqb_neq in Ew, Edf, Edt. rewrite Ew, Edf, Edt.
    rewrite (delegated_final rt).
    destruct (get_metrics_sends rt self website_id date_from date_to (c :: cs)
                clk st) as [req [new Hs]].
    rewrite Hs. apply grown_neq.
  - intros [H|[H|[H|H]]]; congruence.
Qed.

(** The tools that take a website_id alone refuse the empty string
    before anything is sent and accept every other value; with the client
    built, they then reach the network, and so does [list_websites]
    always. *)
Theorem website_id_validation (rt : runtime) (self : PiwikAnalytics.t)
    (clk : clock) (st : store) :
  piwik rt = Some self ->
  get_website_details rt "" clk st
  = (Raise (Exception "website_id is required"), st, [])
  /\ get_annotations rt "" clk st
     = (Raise (Exception "website_id is required"), st, [])
  /\ (forall website_id,
        website_id <> "" ->
        sent (final (get_website_details rt website_id clk st)) <> sent st
        /\ sent (final (get_annotations rt website_id clk st)) <> sent st)
  /\ sent (final (list_websites rt clk st)) <> sent st.
Proof.
  intro Hp.
  split; [unfold get_website_details; now rewrite Hp|].
  split; [unfold get_annotations; now rewrite Hp|].
  assert (Hget : supported "GET") by (left; reflexivity).
  split.
  - intros w Hw. unfold get_website_details, get_annotations. rewrite Hp.
    apply String.eqb_neq in Hw. rewrite Hw. rewrite !(delegated_final rt).
    unfold PiwikAnalytics.get_website_details, PiwikAnalytics.get_annotations.
    split.
    + destruct (make_api_call_sends rt self ("/api/apps/v2/" ++ w) "GET" None None
                  clk st Hget) as [req [new Hs]].
      rewrite Hs. apply grown_neq.
    + destruct (make_api_call_sends rt self
                  ("/api/analytics/v1/manage/annotation/user?website_id=" ++ w)
                  "GET" None None clk st Hget) as [req [new Hs]].
      rewrite Hs. apply grown_neq.
  - unfold final. rewrite (list_websites_run rt self clk st Hp), serialised_store.
    unfold PiwikAnalytics.get_websites.
    destruct (make_api_call_sends rt self "/api/apps/v2" "GET" None None clk st
                Hget) as [req [new Hs]].
    unfold final in Hs. rewrite Hs. apply grown_neq.
Qed.

Lemma resolved_entries_unknown (columns : list string) :
  Forall (fun c => in_table c = false) columns -> resolved_entries columns = [].
Proof.
  intro Hall. unfold resolved_entries.
  induction Hall as [|c cs Hc _ IH]; [reflexivity|].
  cbn [filter]. now rewrite Hc.
Qed.

(** The column list is checked before it is resolved: a request whose
    names are all unknown passes the tool's check and is posted with an
    empty column list. *)
Theorem unknown_columns_post_empty_list (rt : runtime) (self : PiwikAnalytics.t)
    (website_id date_from date_to : string) (columns : list string)
    (clk : clock) (st : store) :
  piwik rt = Some self ->
  website_id <> "" -> date_from <> "" -> date_to <> "" -> columns <> [] ->
  Forall (fun c => in_table c = false) columns ->
  PiwikAnalytics.token_usable st (timestamp clk) = true ->
  sent (final (get_metrics rt website_id date_from date_to columns clk st))
  = (sent st
     ++ [issued_request "POST" (BASE_URL rt ++ "/api/analytics/v1/query")
           (PiwikAnalytics.api_headers rt (token st))
           (Some (metrics_payload website_id date_from date_to [])) None])%list.
Proof.
  intros Hp Hw Hdf Hdt Hc Hall Hu.
  unfold get_metrics. rewrite Hp.
  apply String.eqb_neq in Hw, Hdf, Hdt. rewrite Hw, Hdf, Hdt.
  destruct columns as [|c cs]; [congruence|].
  rewrite (delegated_final rt), get_metrics_run.
  rewrite (resolved_entries_unknown _ Hall).
  pose proof (make_api_call_with_token rt self "/api/analytics/v1/query" "POST"
                (Some (metrics_payload website_id date_from date_to [])) None clk
                st (token st) st _ (or_intror (or_introl eq_refl))
                (get_auth_token_cached rt self clk st Hu)) as Hrun.
  destruct (PiwikAnalytics._make_api_call _ _ _ _ _ _ _ _) as [[r st'] lg].
  unfold final. cbn [fst snd] in *. apply (f_equal snd) in Hrun.
  cbn [snd] in Hrun. rewrite Hrun. apply call_result_sent.
Qed.

(** ** The client methods as requests *)

Lemma make_api_call_sent_with_token (rt : runtime) (self : PiwikAnalytics.t)
    (endpoint method : string) (data params : option json) (clk : clock)
    (st : store) (tok : json) (st1 : store) (lg : list log_record) :
  supported method ->
  PiwikAnalytics._get_auth_token rt self clk st = (Ok tok, st1, lg) ->
  sent (final (PiwikAnalytics._make_api_call rt self endpoint method data params
                 clk st))
  = (sent st1
     ++ [issued_request method (BASE_URL rt ++ endpoint)
           (PiwikAnalytics.api_headers rt tok) data params])%list.
Proof.
  intros Hm Ha. unfold final.
  rewrite (make_api_call_with_token rt self endpoint method data params clk st
             tok st1 lg Hm Ha).
  apply call_result_sent.
Qed.

(** Once the token is there, [create_annotation] posts one request, the
    annotation envelope, to the annotation endpoint.  The date of the
    envelope is today's when the date is left out or is the empty string,
    and the given date otherwise, whatever its format; the visibility is
    "private" when left out. *)
Theorem create_annotation_payload (rt : runtime) (self : PiwikAnalytics.t)
    (website_id content : string) (date visibility : option string)
    (clk : clock) (st : store) (tok : json) (st1 : store)
    (lg : list log_record) :
  PiwikAnalytics._get_auth_token rt self clk st = (Ok tok, st1, lg) ->
  (date = None \/ date = Some "" ->
   sent (final (PiwikAnalytics.create_annotation rt self website_id content date
                  visibility clk st))
   = (sent st1
      ++ [issued_request "POST"
            (BASE_URL rt ++ "/api/analytics/v1/manage/annotation/user/")
            (PiwikAnalytics.api_headers rt tok)
            (Some (annotation_payload website_id content (today clk)
                     (arg_default visibility "private"))) None])%list)
  /\ (forall d, date = Some d -> d <> "" ->
      sent (final (PiwikAnalytics.create_annotation rt self website_id content date
                     visibility clk st))
      = (sent st1
         ++ [issued_request "POST"
               (BASE_URL rt ++ "/api/analytics/v1/manage/annotation/user/")
               (PiwikAnalytics.api_headers rt tok)
               (Some (annotation_payload website_id content d
                        (arg_default visibility "private"))) None])%list).
Proof.
  intro Ha.
  assert (Hpost : supported "POST") by (right; left; reflexivity).
  unfold PiwikAnalytics.create_annotation.
  split.
  - intros [-> | ->];
      rewrite (make_api_call_sent_with_token rt self _ "POST" _ None clk st tok
                 st1 lg Hpost Ha); reflexivity.
  - intros d -> Hd.
    rewrite (make_api_call_sent_with_token rt self _ "POST" _ None clk st tok st1
               lg Hpost Ha).
    unfold str_or. apply String.eqb_neq in Hd. now rewrite Hd.
Qed.

(** Once the token is there, each of the three read methods sends one
    GET without body and without query parameters; the website_id is put
    into the path, or into the query string, as it is. *)
Theorem read_methods_requests (rt : runtime) (self : PiwikAnalytics.t)
    (website_id : string) (clk : clock) (st : store) (tok : json) (st1 : store)
    (lg : list log_record) :
  PiwikAnalytics._get_auth_token rt self clk st = (Ok tok, st1, lg) ->
  sent (final (PiwikAnalytics.get_websites rt self clk st))
  = (sent st1 ++ [get_request rt tok (BASE_URL rt ++ "/api/apps/v2")])%list
  /\ sent (final (PiwikAnalytics.get_website_details rt self website_id clk st))
     = (sent st1
        ++ [get_request rt tok (BASE_URL rt ++ "/api/apps/v2/" ++ website_id)])%list
  /\ sent (final (PiwikAnalytics.get_annotations rt self website_id clk st))
     = (sent st1
        ++ [get_request rt tok
              (BASE_URL rt
               ++ "/api/analytics/v1/manage/annotation/user?website_id="
               ++ website_id)])%list.
Proof.
  intro Ha.
  assert (Hget : supported "GET") by (left; reflexivity).
  unfold PiwikAnalytics.get_websites, PiwikAnalytics.get_website_details,
    PiwikAnalytics.get_annotations.
  rewrite !(make_api_call_sent_with_token rt self _ "GET" None None clk st tok st1
              lg Hget Ha).
  repeat split.
Qed.

(** ** A whole invocation *)

(** A first [list_websites] on a cold cache, the lifetime of the token
    being a number that converts to a float: the token is exchanged, the
    GET carries it as bearer token, the tool returns the serialised JSON
    answer, two requests have been sent and the token is cached with its
    expiry. *)
Theorem list_websites_cold_start (rt : runtime) (self : PiwikAnalytics.t)
    (clk : clock) (st : store) (r1 r2 : response)
    (fields : list (string * json)) (tok : json) (x : Q) (j : json) :
  piwik rt = Some self ->
  PiwikAnalytics.token_usable st (timestamp clk) = false ->
  server rt (sent st) (PiwikAnalytics.token_request rt self) = Response r1 ->
  ~ (400 <= status_code r1 < 600)%Z ->
  body_json r1 = Decoded (JObj fields) ->
  assoc "access_token" fields = Some tok ->
  as_float (dict_get (JObj fields) "expires_in" (JInt 3600)) = Some x ->
  overflows_float (dict_get (JObj fields) "expires_in" (JInt 3600)) = false ->
  server rt (sent st ++ [PiwikAnalytics.token_request rt self])%list
    (get_request rt tok (BASE_URL rt ++ "/api/apps/v2")) = Response r2 ->
  ~ (400 <= status_code r2 < 600)%Z ->
  body_json r2 = Decoded j ->
  fst (list_websites rt clk st)
  = (Ok (json_dumps rt j),
     {| token := tok;
        token_expiry := Some (timestamp clk + x)%Q;
        sent := ((sent st ++ [PiwikAnalytics.token_request rt self])
                 ++ [get_request rt tok (BASE_URL rt ++ "/api/apps/v2")])%list |}).
Proof.
  intros Hp Hu Hs1 Hr1 Hb1 Ha Hx Hno Hs2 Hr2 Hb2.
  rewrite (list_websites_run rt self clk st Hp).
  unfold PiwikAnalytics.get_websites. rewrite make_api_call_run.
  pose proof (get_auth_token_exchange rt self clk st Hu) as He.
  unfold exchange_result in He.
  rewrite Hs1, (http_error_msg_none r1 _ Hr1), Hb1 in He.
  cbn [py_getitem] in He. rewrite Ha in He. cbn [outcome ret fst] in He.
  rewrite Hx, Hno in He.
  destruct (PiwikAnalytics._get_auth_token rt self clk st) as [[res st1] lg].
  cbn [fst] in He. inversion He. subst res st1.
  cbn [PiwikAnalytics.api_request String.eqb Ascii.eqb Bool.eqb].
  unfold call_result. cbn [sent token token_expiry].
  change {| req_method := "GET"; req_url := BASE_URL rt ++ "/api/apps/v2";
            req_headers := PiwikAnalytics.api_headers rt tok;
            req_auth := None; req_data := []; req_json := None;
            req_params := None |}
    with (get_request rt tok (BASE_URL rt ++ "/api/apps/v2")).
  rewrite Hs2, (http_error_msg_none r2 _ Hr2), Hb2. reflexivity.
Qed.

(** A token answer without the access_token field is not an
    authentication failure of the client: [_get_auth_token] raises the
    bare [KeyError], the API call lets it through without sending its
    request, and a tool reports the message ['access_token'], quotes
    included.  The cache is untouched. *)
Theorem missing_access_token_surfaces (rt : runtime) (self : PiwikAnalytics.t)
    (clk : clock) (st : store) (r : response) (fields : list (string * json)) :
  piwik rt = Some self ->
  PiwikAnalytics.token_usable st (timestamp clk) = false ->
  server rt (sent st) (PiwikAnalytics.token_request rt self) = Response r ->
  ~ (400 <= status_code r < 600)%Z ->
  body_json r = Decoded (JObj fields) ->
  assoc "access_token" fields = None ->
  outcome (PiwikAnalytics._get_auth_token rt self clk st)
  = Raise (KeyError "access_token")
  /\ fst (PiwikAnalytics.get_websites rt self clk st)
     = (Raise (KeyError "access_token"),
        {| token := token st; token_expiry := token_expiry st;
           sent := (sent st ++ [PiwikAnalytics.token_request rt self])%list |})
  /\ fst (list_websites rt clk st)
     = (Raise (Exception "'access_token'"),
        {| token := token st; token_expiry := token_expiry st;
           sent := (sent st ++ [PiwikAnalytics.token_request rt self])%list |}).
Proof.
  intros Hp Hu Hs Hr Hb Ha.
  pose proof (get_auth_token_exchange rt self clk st Hu) as He.
  unfold exchange_result in He.
  rewrite Hs, (http_error_msg_none r _ Hr), Hb in He.
  cbn [py_getitem] in He. rewrite Ha in He. cbn [outcome raise fst] in He.
  assert (Hc : fst (PiwikAnalytics.get_websites rt self clk st)
               = (Raise (KeyError "access_token"),
                  {| token := token st; token_expiry := token_expiry st;
                     sent := (sent st ++ [PiwikAnalytics.token_request rt self])%list |})).
  { unfold PiwikAnalytics.get_websites. rewrite make_api_call_run.
    destruct (PiwikAnalytics._get_auth_token rt self clk st) as [[res st1] lg].
    cbn [fst] in He. inversion He. reflexivity. }
  split; [unfold outcome; now rewrite He|]. split; [exact Hc|].
  rewrite (list_websites_run rt self clk st Hp), Hc. reflexivity.
Qed.

(** * The further properties on concrete runs *)

Lemma get_auth_token_failure_witness :
  outcome (PiwikAnalytics._get_auth_token rt_no_access_token sample_self
             (at_time 1000) PiwikAnalytics.init_store)
  = Raise (KeyError "access_token")
  /\ sent (final (PiwikAnalytics._get_auth_token rt_no_access_token sample_self
                    (at_time 1000) PiwikAnalytics.init_store))
     = (sent PiwikAnalytics.init_store
        ++ [PiwikAnalytics.token_request rt_no_access_token sample_self])%list
  /\ token_expiry (final (PiwikAnalytics._get_auth_token rt_no_access_token
                            sample_self (at_time 1000) PiwikAnalytics.init_store))
     = token_expiry PiwikAnalytics.init_store
  /\ token (final (PiwikAnalytics._get_auth_token rt_no_access_token
                     sample_self (at_time 1000) PiwikAnalytics.init_store))
     = token PiwikAnalytics.init_store
  /\ outcome (PiwikAnalytics._get_auth_token rt_huge_expiry sample_self
                (at_time 6000) warm_store)
     = Raise (OverflowError "int too large to convert to float")
  /\ token_expiry (final (PiwikAnalytics._get_auth_token rt_huge_expiry
                            sample_self (at_time 6000) warm_store))
     = token_expiry warm_store.
Proof.
  assert (H : outcome (PiwikAnalytics._get_auth_token rt_no_access_token
                         sample_self (at_time 1000) PiwikAnalytics.init_store)
              = Raise (KeyError "access_token")) by reflexivity.
  assert (H' : outcome (PiwikAnalytics._get_auth_token rt_huge_expiry sample_self
                          (at_time 6000) warm_store)
               = Raise (OverflowError "int too large to convert to float"))
    by (vm_compute; reflexivity).
  split; [exact H|].
  destruct (get_auth_token_failure rt_no_access_token sample_self (at_time 1000)
              PiwikAnalytics.init_store _ H) as [Hs [He [Ht _]]].
  split; [exact Hs|]. split; [exact He|]. split.
  - apply Ht; intros msg Hm; discriminate Hm.
  - split; [exact H'|].
    exact (proj1 (proj2
             (get_auth_token_failure rt_huge_expiry sample_self (at_time 6000)
                warm_store _ H'))).
Defined.

(** An expires_in too large for a float: the [OverflowError] of line 65
    leaves the new token in the cache with the old expiry. *)
Example huge_expires_in_overflows :
  (float_int_limit <= 10 ^ 400)%Z
  /\ outcome (PiwikAnalytics._get_auth_token rt_huge_expiry sample_self
                (at_time 6000) warm_store)
     = Raise (OverflowError "int too large to convert to float")
  /\ token (final (PiwikAnalytics._get_auth_token rt_huge_expiry sample_self
                     (at_time 6000) warm_store)) = JStr "t"
  /\ token_expiry (final (PiwikAnalytics._get_auth_token rt_huge_expiry sample_self
                            (at_time 6000) warm_store)) = Some 5000%Q.
Proof.
  split; [apply Z.leb_le; vm_compute; reflexivity|].
  split; [vm_compute; reflexivity|]. split; vm_compute; reflexivity.
Qed.

Lemma bad_expires_in_overwrites_token_witness :
  PiwikAnalytics.token_usable warm_store (timestamp (at_time 6000)) = false
  /\ (~ (400 <= 200 < 600)%Z)
  /\ as_float (JStr "soon") = None
  /\ outcome (PiwikAnalytics._get_auth_token rt_bad_expiry sample_self
                (at_time 6000) warm_store)
     = Raise (TypeError "unsupported operand type(s) for +: 'float' and 'str'")
  /\ token (final (PiwikAnalytics._get_auth_token rt_bad_expiry sample_self
                     (at_time 6000) warm_store)) = JStr "t"
  /\ token_expiry (final (PiwikAnalytics._get_auth_token rt_bad_expiry sample_self
                            (at_time 6000) warm_store))
     = token_expiry warm_store.
Proof.
  assert (Hr : ~ (400 <= 200 < 600)%Z) by lia.
  split; [reflexivity|]. split; [exact Hr|]. split; [reflexivity|].
  exact (bad_expires_in_overwrites_token rt_bad_expiry sample_self (at_time 6000)
           warm_store
           {| status_code := 200; reason := "OK"; text := "{...}";
              body_json := Decoded (JObj [("access_token", JStr "t");
                                          ("expires_in", JStr "soon")]) |}
           [("access_token", JStr "t"); ("expires_in", JStr "soon")]
           (JStr "t") (JStr "soon")
           eq_refl eq_refl Hr eq_refl eq_refl eq_refl eq_refl).
Defined.

Lemma expired_token_is_exchanged_again_witness :
  PiwikAnalytics.token_usable PiwikAnalytics.init_store (timestamp (at_time 1000))
  = false
  /\ converts_exactly (JInt 0) = true
  /\ (timestamp (at_time 1000) + inject_Z 0 <= timestamp (at_time 1000))%Q
  /\ outcome (PiwikAnalytics._get_auth_token rt_zero_lifetime sample_self
                (at_time 1000) PiwikAnalytics.init_store) = Ok (JStr "abc")
  /\ sent (final (PiwikAnalytics._get_auth_token rt_zero_lifetime sample_self
                    (at_time 1000)
                    (final (PiwikAnalytics._get_auth_token rt_zero_lifetime
                              sample_self (at_time 1000)
                              PiwikAnalytics.init_store))))
     = (sent PiwikAnalytics.init_store
        ++ [ PiwikAnalytics.token_request rt_zero_lifetime sample_self;
             PiwikAnalytics.token_request rt_zero_lifetime sample_self ])%list.
Proof.
  assert (Hr : ~ (400 <= 200 < 600)%Z) by lia.
  assert (Hle : (timestamp (at_time 1000) + inject_Z 0
                 <= timestamp (at_time 1000))%Q).
  { unfold Qle. simpl. lia. }
  split; [reflexivity|]. split; [reflexivity|]. split; [exact Hle|].
  exact (expired_token_is_exchanged_again rt_zero_lifetime sample_self
           (at_time 1000) (at_time 1000) PiwikAnalytics.init_store
           {| status_code := 200; reason := "OK"; text := "{...}";
              body_json := Decoded (JObj [("access_token", JStr "abc");
                                          ("expires_in", JInt 0)]) |}
           [("access_token", JStr "abc"); ("expires_in", JInt 0)]
           (JStr "abc") (inject_Z 0)
           eq_refl eq_refl Hr eq_refl eq_refl eq_refl eq_refl Hle).
Defined.

Lemma make_api_call_no_retry_witness :
  PiwikAnalytics.token_usable warm_store (timestamp (at_time 1000)) = true
  /\ exists new,
       sent (final (PiwikAnalytics._make_api_call rt_api_401 sample_self
                      "/api/apps/v2" "GET" None None (at_time 1000) warm_store))
       = (sent warm_store ++ new)%list
       /\ (length new <= 1)%nat.
Proof.
  assert (Hu : PiwikAnalytics.token_usable warm_store (timestamp (at_time 1000))
               = true) by reflexivity.
  split; [exact Hu|].
  destruct (make_api_call_no_retry rt_api_401 sample_self "/api/apps/v2" "GET"
              None None (at_time 1000) warm_store) as [new [Hs [_ H1]]].
  exists new. split; [exact Hs|exact (H1 Hu)].
Defined.

Lemma unsupported_method_raises_witness :
  ~ supported "PATCH"
  /\ PiwikAnalytics._get_auth_token rt_api_text sample_self (at_time 1000) warm_store
     = (Ok (JStr "tok"), warm_store, [(DEBUG, "Using existing auth token")])
  /\ outcome (PiwikAnalytics._make_api_call rt_api_text sample_self "/api/apps/v2"
                "PATCH" None None (at_time 1000) warm_store)
     = Raise (ValueError "Unsupported HTTP method: PATCH")
  /\ final (PiwikAnalytics._make_api_call rt_api_text sample_self "/api/apps/v2"
              "PATCH" None None (at_time 1000) warm_store) = warm_store.
Proof.
  assert (Hm : ~ supported "PATCH").
  { intros [H|[H|[H|H]]]; discriminate H. }
  split; [exact Hm|]. split; [reflexivity|].
  exact (unsupported_method_raises rt_api_text sample_self "/api/apps/v2" "PATCH"
           None None (at_time 1000) warm_store (JStr "tok") warm_store
           [(DEBUG, "Using existing auth token")] Hm eq_refl).
Defined.

Lemma api_call_transport_error_witness :
  supported "GET"
  /\ server rt_api_unreachable (sent warm_store)
       (warm_get rt_api_unreachable "/api/apps/v2") = TransportError "timed out"
  /\ outcome (PiwikAnalytics._make_api_call rt_api_unreachable sample_self
                "/api/apps/v2" "GET" None None (at_time 1000) warm_store)
     = Raise (Exception "API call failed: timed out").
Proof.
  assert (Hm : supported "GET") by (left; reflexivity).
  split; [exact Hm|]. split; [reflexivity|].
  exact (f_equal fst
           (api_call_transport_error rt_api_unreachable sample_self "/api/apps/v2"
              "GET" None None (at_time 1000) warm_store (JStr "tok") warm_store
              [(DEBUG, "Using existing auth token")] "timed out" Hm eq_refl
              eq_refl)).
Defined.

Lemma api_call_keeps_usable_token_witness :
  PiwikAnalytics.token_usable warm_store (timestamp (at_time 1000)) = true
  /\ outcome (PiwikAnalytics._make_api_call rt_api_401 sample_self "/api/apps/v2"
                "GET" None None (at_time 1000) warm_store)
     = Raise (Exception
                ("API call failed: 401 Client Error: Unauthorized for url: https://analytics.piwik.pro/api/apps/v2"
                 ++ nl ++ "Error details: <json>" ++ nl ++ "Status code: 401"))
  /\ token (final (PiwikAnalytics._make_api_call rt_api_401 sample_self
                     "/api/apps/v2" "GET" None None (at_time 1000) warm_store))
     = token warm_store
  /\ token_expiry (final (PiwikAnalytics._make_api_call rt_api_401 sample_self
                            "/api/apps/v2" "GET" None None (at_time 1000)
                            warm_store))
     = token_expiry warm_store.
Proof.
  assert (Hu : PiwikAnalytics.token_usable warm_store (timestamp (at_time 1000))
               = true) by reflexivity.
  split; [exact Hu|]. split; [reflexivity|].
  exact (api_call_keeps_usable_token rt_api_401 sample_self "/api/apps/v2" "GET"
           None None (at_time 1000) warm_store Hu).
Defined.

Lemma api_call_log_hides_token_witness :
  PiwikAnalytics.token_usable warm_store (timestamp (at_time 1000)) = true
  /\ PiwikAnalytics.token_usable other_warm_store (timestamp (at_time 1000)) = true
  /\ token warm_store <> token other_warm_store
  /\ logged (PiwikAnalytics._make_api_call rt_api_404 sample_self "/api/apps/v2"
               "GET" None None (at_time 1000) warm_store)
     = logged (PiwikAnalytics._make_api_call rt_api_404 sample_self "/api/apps/v2"
                 "GET" None None (at_time 1000) other_warm_store)
  /\ In (DEBUG,
         "Headers: "
         ++ json_dumps rt_api_404
              (JObj [ ("Authorization", JStr "Bearer ***");
                      ("Content-Type", JStr "application/json") ]))
        (logged (PiwikAnalytics._make_api_call rt_api_404 sample_self
                   "/api/apps/v2" "GET" None None (at_time 1000) warm_store)).
Proof.
  split; [reflexivity|]. split; [reflexivity|]. split; [discriminate|].
  destruct (api_call_log_hides_token rt_api_404 sample_self "/api/apps/v2"
              "GET" None None (at_time 1000) warm_store other_warm_store
              (json_answer 404 "Not Found"
                 (JObj [("error", JStr "no such app")]))
              eq_refl eq_refl eq_refl eq_refl) as [Hl [_ Hh]].
  split; [exact Hl|exact Hh].
Defined.

Lemma resolve_columns_partition_witness :
  Forall (fun c => in_table c = false) ["bogus"; "avg_order_value"]
  /\ fst (PiwikAnalytics.resolve_columns ["bogus"; "avg_order_value"]) = []
  /\ snd (PiwikAnalytics.resolve_columns ["bogus"; "avg_order_value"])
     = [ (WARNING, "Unknown column: bogus");
         (WARNING, "Unknown column: avg_order_value") ].
Proof.
  assert (H : Forall (fun c => in_table c = false) ["bogus"; "avg_order_value"]).
  { repeat constructor. }
  split; [exact H|].
  exact (proj2 (proj2 (resolve_columns_partition ["bogus"; "avg_order_value"])) H).
Defined.


Lemma tools_raise_only_Exception_witness :
  outcome (PiwikAnalytics.get_websites rt_no_access_token sample_self
             (at_time 1000) PiwikAnalytics.init_store)
  = Raise (KeyError "access_token")
  /\ outcome (list_websites rt_no_access_token (at_time 1000)
                PiwikAnalytics.init_store)
     = Raise (Exception "'access_token'")
  /\ exists msg,
       Exception "'access_token'" = Exception msg.
Proof.
  assert (H : outcome (list_websites rt_no_access_token (at_time 1000)
                         PiwikAnalytics.init_store)
              = Raise (Exception "'access_token'")) by reflexivity.
  split; [reflexivity|]. split; [exact H|].
  exact (proj1 (tools_raise_only_Exception rt_no_access_token (at_time 1000)
                  PiwikAnalytics.init_store) _ H).
Defined.

Lemma get_metrics_validation_witness :
  piwik rt_api_text = Some sample_self
  /\ get_metrics rt_api_text "1" "" "2024-04-30" ["visits"] (at_time 1000)
       warm_store
     = (Raise (Exception "date_from is required"), warm_store, [])
  /\ (sent (final (get_metrics rt_api_text "1" "yesterday" "today" ["visits"]
                     (at_time 1000) warm_store)) = sent warm_store
      <-> "1" = "" \/ "yesterday" = "" \/ "today" = "" \/ ["visits"] = []).
Proof.
  assert (Hp : piwik rt_api_text = Some sample_self) by reflexivity.
  assert (Hw : "1" <> "") by discriminate.
  split; [exact Hp|]. split.
  - exact (proj1 (proj2 (get_metrics_validation rt_api_text sample_self "1" ""
                           "2024-04-30" ["visits"] (at_time 1000) warm_store Hp))
             Hw eq_refl).
  - exact (proj2 (proj2 (proj2 (proj2
             (get_metrics_validation rt_api_text sample_self "1" "yesterday"
                "today" ["visits"] (at_time 1000) warm_store Hp))))).
Defined.

Lemma website_id_validation_witness :
  piwik rt_api_text = Some sample_self
  /\ get_annotations rt_api_text "" (at_time 1000) warm_store
     = (Raise (Exception "website_id is required"), warm_store, [])
  /\ sent (final (list_websites rt_api_text (at_time 1000) warm_store))
     <> sent warm_store.
Proof.
  assert (Hp : piwik rt_api_text = Some sample_self) by reflexivity.
  split; [exact Hp|].
  destruct (website_id_validation rt_api_text sample_self (at_time 1000)
              warm_store Hp) as [_ [Ha [_ Hl]]].
  split; [exact Ha|exact Hl].
Defined.

Lemma unknown_columns_post_empty_list_witness :
  piwik rt_api_text = Some sample_self
  /\ Forall (fun c => in_table c = false) ["avg_order_value"]
  /\ PiwikAnalytics.token_usable warm_store (timestamp (at_time 1000)) = true
  /\ map req_json
       (sent (final (get_metrics rt_api_text "1" "2024-04-01" "2024-04-30"
                       ["avg_order_value"] (at_time 1000) warm_store)))
     = [Some (metrics_payload "1" "2024-04-01" "2024-04-30" [])].
Proof.
  assert (Hp : piwik rt_api_text = Some sample_self) by reflexivity.
  assert (Hall : Forall (fun c => in_table c = false) ["avg_order_value"]).
  { repeat constructor. }
  assert (Hu : PiwikAnalytics.token_usable warm_store (timestamp (at_time 1000))
               = true) by reflexivity.
  split; [exact Hp|]. split; [exact Hall|]. split; [exact Hu|].
  assert (Hw : "1" <> "") by discriminate.
  assert (Hdf : "2024-04-01" <> "") by discriminate.
  assert (Hdt : "2024-04-30" <> "") by discriminate.
  assert (Hc : ["avg_order_value"] <> []) by discriminate.
  exact (f_equal (map req_json)
           (unknown_columns_post_empty_list rt_api_text sample_self "1"
              "2024-04-01" "2024-04-30" ["avg_order_value"] (at_time 1000)
              warm_store Hp Hw Hdf Hdt Hc Hall Hu)).
Defined.

Lemma create_annotation_payload_witness :
  PiwikAnalytics._get_auth_token rt_api_text sample_self (at_time 1000) warm_store
  = (Ok (JStr "tok"), warm_store, [(DEBUG, "Using existing auth token")])
  /\ map req_json
       (sent (final (PiwikAnalytics.create_annotation rt_api_text sample_self "1"
                       "release" (Some "") None (at_time 1000) warm_store)))
     = [Some (annotation_payload "1" "release" "2024-05-01" "private")].
Proof.
  split; [reflexivity|].
  exact (f_equal (map req_json)
           (proj1 (create_annotation_payload rt_api_text sample_self "1" "release"
                     (Some "") None (at_time 1000) warm_store (JStr "tok")
                     warm_store [(DEBUG, "Using existing auth token")] eq_refl)
              (or_intror eq_refl))).
Defined.

Lemma read_methods_requests_witness :
  PiwikAnalytics._get_auth_token rt_api_text sample_self (at_time 1000) warm_store
  = (Ok (JStr "tok"), warm_store, [(DEBUG, "Using existing auth token")])
  /\ map req_url
       (sent (final (PiwikAnalytics.get_annotations rt_api_text sample_self
                       "1&limit=0" (at_time 1000) warm_store)))
     = ["https://analytics.piwik.pro/api/analytics/v1/manage/annotation/user?website_id=1&limit=0"].
Proof.
  split; [reflexivity|].
  exact (f_equal (map req_url)
           (proj2 (proj2
              (read_methods_requests rt_api_text sample_self "1&limit=0"
                 (at_time 1000) warm_store (JStr "tok") warm_store
                 [(DEBUG, "Using existing auth token")] eq_refl)))).
Defined.

Lemma list_websites_cold_start_witness :
  piwik rt_cold_start = Some sample_self
  /\ PiwikAnalytics.token_usable PiwikAnalytics.init_store
       (timestamp (at_time 1000)) = false
  /\ overflows_float (JInt 3600) = false
  /\ outcome (list_websites rt_cold_start (at_time 1000) PiwikAnalytics.init_store)
     = Ok (json_dumps rt_cold_start websites_body)
  /\ length (sent (final (list_websites rt_cold_start (at_time 1000)
                            PiwikAnalytics.init_store))) = 2%nat.
Proof.
  assert (Hp : piwik rt_cold_start = Some sample_self) by reflexivity.
  assert (Hr : ~ (400 <= 200 < 600)%Z) by lia.
  split; [exact Hp|]. split; [reflexivity|]. split; [reflexivity|].
  pose proof (list_websites_cold_start rt_cold_start sample_self (at_time 1000)
                PiwikAnalytics.init_store
                {| status_code := 200; reason := "OK"; text := "{...}";
                   body_json := Decoded (JObj [("access_token", JStr "abc")]) |}
                {| status_code := 200; reason := "OK"; text := "{...}";
                   body_json := Decoded websites_body |}
                [("access_token", JStr "abc")] (JStr "abc") (inject_Z 3600)
                websites_body Hp eq_refl eq_refl Hr eq_refl eq_refl eq_refl
                eq_refl eq_refl Hr eq_refl) as H.
  unfold outcome, final. rewrite H. split; reflexivity.
Defined.

Lemma missing_access_token_surfaces_witness :
  piwik rt_no_access_token = Some sample_self
  /\ PiwikAnalytics.token_usable PiwikAnalytics.init_store
       (timestamp (at_time 1000)) = false
  /\ assoc "access_token" [("token_type", JStr "Bearer")] = None
  /\ outcome (list_websites rt_no_access_token (at_time 1000)
                PiwikAnalytics.init_store)
     = Raise (Exception "'access_token'").
Proof.
  assert (Hp : piwik rt_no_access_token = Some sample_self) by reflexivity.
  assert (Hr : ~ (400 <= 200 < 600)%Z) by lia.
  split; [exact Hp|]. split; [reflexivity|]. split; [reflexivity|].
  exact (f_equal fst
           (proj2 (proj2
              (missing_access_token_surfaces rt_no_access_token sample_self
                 (at_time 1000) PiwikAnalytics.init_store
                 {| status_code := 200; reason := "OK"; text := "{...}";
                    body_json := Decoded (JObj [("token_type", JStr "Bearer")]) |}
                 [("token_type", JStr "Bearer")] Hp eq_refl eq_refl Hr eq_refl
                 eq_refl)))).
Defined.

(** ** Two more facts on the client *)

(** Whenever [_get_auth_token] returns, the token it returns is the one
    the cache then holds, and the cache has an expiry. *)
Theorem get_auth_token_returns_cached (rt : runtime) (self : PiwikAnalytics.t)
    (clk : clock) (st : store) (tok : json) :
  outcome (PiwikAnalytics._get_auth_token rt self clk st) = Ok tok ->
  token (final (PiwikAnalytics._get_auth_token rt self clk st)) = tok
  /\ exists expiry,
       token_expiry (final (PiwikAnalytics._get_auth_token rt self clk st))
       = Some expiry.
Proof.
  destruct (PiwikAnalytics.token_usable st (timestamp clk)) eqn:Eu.
  - rewrite (get_auth_token_cached rt self clk st Eu).
    unfold outcome, final. cbn [fst snd]. intro H. inversion H.
    split; [reflexivity|].
    apply token_usable_iff in Eu. destruct Eu as [_ [e [He _]]]. now exists e.
  - unfold outcome, final.
    rewrite (get_auth_token_exchange rt self clk st Eu).
    unfold exchange_result.
    destruct (server rt (sent st) _) as [msg|r]; [discriminate|].
    destruct (http_error_msg r _); [discriminate|].
    destruct (body_json r) as [data|]; [|discriminate].
    destruct (outcome (py_getitem data "access_token" _)) as [tok'|];
      [|discriminate].
    destruct (as_float _) as [x|]; [|discriminate].
    destruct (overflows_float _); [discriminate|].
    cbn [fst snd token token_expiry]. intro H. inversion H.
    split; [reflexivity|]. now eexists.
Qed.

(** What a request of [_make_api_call] carries besides its headers: the
    JSON body for POST and PUT only, the query parameters for GET only.
    A body given with GET or DELETE, and parameters given with POST, PUT
    or DELETE, are dropped without notice. *)
Theorem request_body_and_params (rt : runtime) (self : PiwikAnalytics.t)
    (endpoint method : string) (data params : option json) (clk : clock)
    (st : store) (tok : json) (st1 : store) (lg : list log_record) :
  supported method ->
  PiwikAnalytics._get_auth_token rt self clk st = (Ok tok, st1, lg) ->
  exists req,
    sent (final (PiwikAnalytics._make_api_call rt self endpoint method data params
                   clk st))
    = (sent st1 ++ [req])%list
    /\ req_method req = method
    /\ (method = "POST" \/ method = "PUT" -> req_json req = data)
    /\ (method = "GET" \/ method = "DELETE" -> req_json req = None)
    /\ (method = "GET" -> req_params req = params)
    /\ (method <> "GET" -> req_params req = None).
Proof.
  intros Hm Ha. eexists. split.
  - apply (make_api_call_sent_with_token rt self endpoint method data params clk
             st tok st1 lg Hm Ha).
  - unfold issued_request. cbn [req_method req_json req_params].
    split; [reflexivity|].
    split; [intros [-> | ->]; reflexivity|].
    split; [intros [-> | ->]; reflexivity|].
    split; [intros ->; reflexivity|].
    intro Hne. apply String.eqb_neq in Hne. now rewrite Hne.
Qed.

Lemma get_auth_token_returns_cached_witness :
  outcome (PiwikAnalytics._get_auth_token rt_fresh_token sample_self (at_time 1000)
             PiwikAnalytics.init_store) = Ok (JStr "abc")
  /\ token (final (PiwikAnalytics._get_auth_token rt_fresh_token sample_self
                     (at_time 1000) PiwikAnalytics.init_store)) = JStr "abc"
  /\ exists expiry,
       token_expiry (final (PiwikAnalytics._get_auth_token rt_fresh_token
                              sample_self (at_time 1000)
                              PiwikAnalytics.init_store))
       = Some expiry.
Proof.
  assert (H : outcome (PiwikAnalytics._get_auth_token rt_fresh_token sample_self
                         (at_time 1000) PiwikAnalytics.init_store)
              = Ok (JStr "abc")) by reflexivity.
  split; [exact H|].
  exact (get_auth_token_returns_cached rt_fresh_token sample_self (at_time 1000)
           PiwikAnalytics.init_store (JStr "abc") H).
Defined.

Lemma request_body_and_params_witness :
  supported "DELETE"
  /\ PiwikAnalytics._get_auth_token rt_api_text sample_self (at_time 1000) warm_store
     = (Ok (JStr "tok"), warm_store, [(DEBUG, "Using existing auth token")])
  /\ exists req,
       sent (final (PiwikAnalytics._make_api_call rt_api_text sample_self
                      "/api/apps/v2/7" "DELETE" (Some (JObj [("force", JBool true)]))
                      (Some (JObj [("dry_run", JStr "1")])) (at_time 1000)
                      warm_store))
       = (sent warm_store ++ [req])%list
       /\ req_json req = None /\ req_params req = None.
Proof.
  assert (Hm : supported "DELETE") by (right; right; right; reflexivity).
  split; [exact Hm|]. split; [reflexivity|].
  destruct (request_body_and_params rt_api_text sample_self "/api/apps/v2/7"
              "DELETE" (Some (JObj [("force", JBool true)]))
              (Some (JObj [("dry_run", JStr "1")])) (at_time 1000) warm_store
              (JStr "tok") warm_store [(DEBUG, "Using existing auth token")] Hm
              eq_refl)
    as [req [Hs [_ [_ [Hj [_ Hp]]]]]].
  exists req. split; [exact Hs|]. split.
  - apply Hj. now right.
  - apply Hp. discriminate.
Defined.
